(** * yoto-daily-mix: the feed generator [scripts/generate_feed.py]

    A shallow embedding of the script and the properties of its selection
    arithmetic, its title derivation, its feed rendering and the order of
    its file-system effects.

    Conventions of the embedding.
    - A Python [int] is a [Z]; [%] is [Z.modulo] (both take the sign of the
      divisor) and raises on a zero divisor.
    - A Python [str] is a [string]; a character is an [ascii], that is a
      code point below 256.
    - A raised exception is a value of [exn]; a computation that may raise
      returns a [res].  Effects on the file system and on standard output
      are threaded through a state of type [world]; the state reached when
      an exception is raised is kept, since nothing is rolled back.
    - The ambient reads of the script (today's date, the clock, the random
      generator) are fields of an environment [env].
    - The file system is one working directory of regular files and of
      directories of regular files, keyed by name.  It is exact for paths
      that are plain names; the properties that depend on it carry the
      hypotheses [plain_name] and [tidy].
    - [random.sample] is its swap loop, which the library runs for a
      population of at most 21 elements and whenever the whole population
      is asked for; the properties that depend on the elements chosen
      carry the bound [swap_limit]. *)

From Stdlib Require Import ZArith Lia String Ascii List.
From stdpp Require Import base list strings gmap sorting.

Local Open Scope string_scope.
Local Open Scope Z_scope.

(** ** Exceptions and results *)

Inductive exn : Type :=
  | SystemExit (msg : string)
  | ValueError (msg : string)
  | IndexError
  | ZeroDivisionError
  | OSError (msg : string).

Inductive res (A : Type) : Type :=
  | Ok (a : A)
  | Raise (e : exn).
Arguments Ok {A} a.
Arguments Raise {A} e.

#[global] Instance res_ret : MRet res := λ A a, Ok a.
#[global] Instance res_bind : MBind res := λ A B k m,
  match m with
  | Ok a => k a
  | Raise e => Raise e
  end.

(** A [for] loop whose body may raise: the accumulator is the loop's
    mutable state. *)
Fixpoint for_each {A S : Type} (xs : list A) (s : S) (body : S → A → res S)
    : res S :=
  match xs with
  | [] => Ok s
  | x :: xs' => s' ← body s x; for_each xs' s' body
  end.

(** ** Python built-ins used by the script *)

Module Py.

Definition len {A : Type} (l : list A) : Z := Z.of_nat (length l).

(** [a % b] *)
Definition mod_ (a b : Z) : res Z :=
  if b =? 0 then Raise ZeroDivisionError else Ok (a mod b).

(** [l[i]]: a negative index counts from the end; out of range raises. *)
Definition getitem {A : Type} (l : list A) (i : Z) : res A :=
  let j := if i <? 0 then i + len l else i in
  if (0 <=? j) && (j <? len l) then
    match l !! Z.to_nat j with
    | Some x => Ok x
    | None => Raise IndexError
    end
  else Raise IndexError.

(** [range(k)]: empty when [k <= 0]. *)
Definition range (k : Z) : list Z := Z.of_nat <$> seq 0 (Z.to_nat k).

(** [min(a, b)] *)
Definition min (a b : Z) : Z := if b <? a then b else a.

(** [s.replace(a, b)] for one-character [a] and [b]. *)
Fixpoint replace (a b : ascii) (s : string) : string :=
  match s with
  | EmptyString => EmptyString
  | String c s' => String (if Ascii.eqb c a then b else c) (replace a b s')
  end.

(** [str.isspace] on one character, for code points below 256. *)
Definition isspace (c : ascii) : bool :=
  let n := nat_of_ascii c in
  ((9 <=? n) && (n <=? 13))%nat || ((28 <=? n) && (n <=? 32))%nat
  || (n =? 133)%nat || (n =? 160)%nat.

Fixpoint lstrip (s : string) : string :=
  match s with
  | EmptyString => EmptyString
  | String c s' => if isspace c then lstrip s' else s
  end.

Fixpoint rstrip (s : string) : string :=
  match s with
  | EmptyString => EmptyString
  | String c s' =>
      match rstrip s' with
      | EmptyString => if isspace c then EmptyString else String c EmptyString
      | r => String c r
      end
  end.

(** [s.strip()] *)
Definition strip (s : string) : string := lstrip (rstrip s).

(** [s.rstrip(c)] for a one-character argument. *)
Fixpoint rstrip_char (c : ascii) (s : string) : string :=
  match s with
  | EmptyString => EmptyString
  | String a s' =>
      match rstrip_char c s' with
      | EmptyString => if Ascii.eqb a c then EmptyString else String a EmptyString
      | r => String a r
      end
  end.

(** [str.lower] on one character, for code points below 256. *)
Definition lower_char (c : ascii) : ascii :=
  let n := nat_of_ascii c in
  if ((65 <=? n) && (n <=? 90))%nat
     || ((192 <=? n) && (n <=? 222) && negb (n =? 215))%nat
  then ascii_of_nat (n + 32) else c.

Fixpoint lower (s : string) : string :=
  match s with
  | EmptyString => EmptyString
  | String c s' => String (lower_char c) (lower s')
  end.

(** [s.endswith(suffix)] *)
Definition endswith (s suffix : string) : bool :=
  let n := String.length s in
  let k := String.length suffix in
  (k <=? n)%nat && String.eqb (substring (n - k) k s) suffix.

(** [s.startswith(prefix)] *)
Definition startswith (s prefix : string) : bool := String.prefix prefix s.

(** [s.rfind(c)] for a one-character argument: the highest index of [c],
    or [-1]. *)
Fixpoint rfind_from (c : ascii) (s : string) (i : Z) (found : Z) : Z :=
  match s with
  | EmptyString => found
  | String a s' => rfind_from c s' (i + 1) (if Ascii.eqb a c then i else found)
  end.
Definition rfind (s : string) (c : ascii) : Z := rfind_from c s 0 (-1).

(** [s[i:j]] for [0 <= i <= j]. *)
Definition slice (s : string) (i j : Z) : string :=
  substring (Z.to_nat i) (Z.to_nat (j - i)) s.

(** [s[i:]] for [0 <= i]. *)
Definition slice_from (s : string) (i : Z) : string :=
  substring (Z.to_nat i) (String.length s - Z.to_nat i) s.

(** [str(n)] for a non-negative [n]: decimal digits. *)
Definition str_of_N (n : N) : string := pretty.pretty n.

End Py.

(** ** [os.path] (POSIX flavour) *)

Module OsPath.

(** The loop of [genericpath._splitext] that skips the dots leading the
    last path component: [fuel] bounds the number of iterations, which is
    at most [dotIndex - filenameIndex]. *)
Fixpoint splitext_scan (fuel : nat) (p : string) (filenameIndex dotIndex : Z)
    : string * string :=
  match fuel with
  | O => (p, Py.slice p 0 0)
  | S fuel' =>
      if filenameIndex <? dotIndex then
        if negb (String.eqb (Py.slice p filenameIndex (filenameIndex + 1)) ".")
        then (Py.slice p 0 dotIndex, Py.slice_from p dotIndex)
        else splitext_scan fuel' p (filenameIndex + 1) dotIndex
      else (p, Py.slice p 0 0)
  end.

(** [os.path.splitext(p)] *)
Definition splitext (p : string) : string * string :=
  let sepIndex := Py.rfind p "/"%char in
  let dotIndex := Py.rfind p "."%char in
  if sepIndex <? dotIndex then
    splitext_scan (S (Z.to_nat (dotIndex - (sepIndex + 1)))) p (sepIndex + 1) dotIndex
  else (p, Py.slice p 0 0).

(** [os.path.join(a, b)] *)
Definition join (a b : string) : string :=
  if Py.startswith b "/" then b
  else if String.eqb a "" || Py.endswith a "/" then a +:+ b
  else a +:+ "/" +:+ b.

End OsPath.

(** ** [datetime.date] *)

Module Date.

Record date : Type := mk_date { year : Z; month : Z; day : Z }.

Definition is_leap (y : Z) : bool :=
  (y mod 4 =? 0) && (negb (y mod 100 =? 0) || (y mod 400 =? 0)).

Definition days_before_year (y : Z) : Z :=
  let y := y - 1 in
  y * 365 + y / 4 - y / 100 + y / 400.

Definition DAYS_IN_MONTH : list Z :=
  [-1; 31; 28; 31; 30; 31; 30; 31; 31; 30; 31; 30; 31].

Definition DAYS_BEFORE_MONTH : list Z :=
  [-1; 0; 31; 59; 90; 120; 151; 181; 212; 243; 273; 304; 334].

Definition days_before_month (y m : Z) : Z :=
  nth (Z.to_nat m) DAYS_BEFORE_MONTH 0
  + (if (2 <? m) && is_leap y then 1 else 0).

Definition days_in_month (y m : Z) : Z :=
  if (m =? 2) && is_leap y then 29 else nth (Z.to_nat m) DAYS_IN_MONTH 0.

Definition ymd2ord (y m d : Z) : Z :=
  days_before_year y + days_before_month y m + d.

(** [d.toordinal()]: the proleptic Gregorian ordinal, day 1 being
    0001-01-01. *)
Definition toordinal (d : date) : Z := ymd2ord (year d) (month d) (day d).

(** The dates that [datetime.date] can hold. *)
Definition valid (d : date) : Prop :=
  1 <= year d <= 9999 ∧ 1 <= month d <= 12
  ∧ 1 <= day d <= days_in_month (year d) (month d).

(** [d1 < d2]: the comparison of the (year, month, day) triples. *)
Definition lt (d1 d2 : date) : Prop :=
  year d1 < year d2
  ∨ (year d1 = year d2
     ∧ (month d1 < month d2 ∨ (month d1 = month d2 ∧ day d1 < day d2))).

End Date.

(** ** [random.sample] *)

Module Random.

(** One step of the selection-by-swap loop of [random.sample]: draw
    [j = randbelow(n - i)], emit [pool[j]] and move the last live element
    of the pool into slot [j].  [draw] is the raw output of the
    generator for this step. *)
Definition sample_step {A : Type} (n : nat) (draw : nat → nat)
    (st : list A * list A) (i : nat) : res (list A * list A) :=
  let '(pool, result) := st in
  let j := (draw i `mod` (n - i))%nat in
  match pool !! j, pool !! (n - i - 1)%nat with
  | Some x, Some y => Ok (<[j := y]> pool, (result ++ [x])%list)
  | _, _ => Raise IndexError
  end.

(** [random.sample(population, k)], as the library runs it when
    [n <= setsize], where [setsize] is 21, plus [4 ** ceil(log(3k, 4))]
    when [k > 5]: the argument check, then the swap loop.  That is every
    call with [k = n] and every call on a population of at most 21
    elements; a call with [k <= 0] runs no step of either loop.  Above
    [setsize] the library draws indices until it meets a fresh one
    instead of swapping, and picks other elements for the same
    generator; that branch is not embedded, and nothing is stated of the
    elements chosen there.  The generator is the function [draw], whose
    [i]-th value feeds the [i]-th [randbelow]. *)
Definition sample {A : Type} (draw : nat → nat) (population : list A) (k : Z)
    : res (list A) :=
  let n := Py.len population in
  if negb ((0 <=? k) && (k <=? n)) then
    Raise (ValueError "Sample larger than population or is negative")
  else
    st ← for_each (seq 0 (Z.to_nat k)) (population, [])
           (sample_step (length population) draw);
    Ok (snd st).

End Random.

(** ** The selector (lines 80-91 of [main]) *)

Inductive mode_t : Type := rotate | random.

(** The ambient reads of one run. *)
Record env : Type := mk_env {
  today : Date.date;          (* date.today() *)
  clock : nat → string;       (* the k-th value returned by rfc2822_now() *)
  draw : nat → nat            (* the raw outputs of the random generator *)
}.

(** [date(2020,1,1)] and its ordinal, the [epoch] of line 86. *)
Definition epoch_date : Date.date := Date.mk_date 2020 1 1.

Definition epoch : Z := Date.toordinal epoch_date.

Definition today_index (e : env) : Z := Date.toordinal (today e) - epoch.

(** The rotate branch, from the day index on. *)
Definition rotate_chosen (all_files : list string) (take today_index : Z)
    : res (list string) :=
  let n := Py.len all_files in
  start ← Py.mod_ (today_index * take) n;
  for_each (Py.range take) []
    (λ chosen i,
       idx ← Py.mod_ (start + i) n;
       x ← Py.getitem all_files idx;
       Ok (chosen ++ [x])%list).

Definition select (e : env) (all_files : list string) (num : Z) (mode : mode_t)
    : res (list string) :=
  let n := Py.len all_files in
  let take := Py.min num n in
  match mode with
  | random => Random.sample (draw e) all_files take
  | rotate => rotate_chosen all_files take (today_index e)
  end.

(** ** Title derivation *)

Definition sanitize_title (fn : string) : string :=
  let name := fst (OsPath.splitext fn) in
  let name := Py.strip (Py.replace "-" " " (Py.replace "_" " " name)) in
  name.

(** ** The world: file system, standard output, clock *)

(** A path names either a regular file, with its content, or a directory
    of regular files.  Directories are identified by the path string they
    are reached by, and [os.path.join(d, name)] is the entry [name] of the
    directory [d].

    This is one working directory and its entries, not a tree: a
    directory has no subdirectory (so no candidate of line 76 is itself a
    directory, for which [copy2] would raise), there are no symbolic
    links, and a path that is not a plain name (one with a slash, the
    empty path, [.] and [..]) is only one more key, unrelated to the
    directory it would reach.  The model is exact where every path is a
    plain name: see [plain_name] and [tidy] below. *)
Inductive node : Type :=
  | File (content : string)
  | Dir (entries : gmap string string).

Record world : Type := mk_world {
  fs : gmap string node;
  stdout : string;
  ticks : nat                 (* calls of rfc2822_now() so far *)
}.

Definition M (A : Type) : Type := world → world * res A.

#[global] Instance M_ret : MRet M := λ A a w, (w, Ok a).
#[global] Instance M_bind : MBind M := λ A B k m w,
  match m w with
  | (w', Ok a) => k a w'
  | (w', Raise e) => (w', Raise e)
  end.

Definition raise {A : Type} (e : exn) : M A := λ w, (w, Raise e).

Definition lift {A : Type} (r : res A) : M A := λ w, (w, r).

Definition set_fs (f : gmap string node → gmap string node) (w : world) : world :=
  mk_world (f (fs w)) (stdout w) (ticks w).

(** A [for] loop with effects. *)
Fixpoint for_eachM {A S : Type} (xs : list A) (s : S) (body : S → A → M S)
    : M S :=
  match xs with
  | [] => mret s
  | x :: xs' => s' ← body s x; for_eachM xs' s' body
  end.

Definition nl : string := String "010"%char EmptyString.
Definition dq : string := String "034"%char EmptyString.

Module Os.

Definition path_isdir (p : string) : M bool := λ w,
  (w, Ok (match fs w !! p with Some (Dir _) => true | _ => false end)).

Definition path_exists (p : string) : M bool := λ w,
  (w, Ok (match fs w !! p with Some _ => true | None => false end)).

(** [shutil.rmtree(p)], for a plain name [p]: the directory goes with all
    it holds, which here is its regular files.  Nothing is said of paths
    below [p] or of other spellings of [p], which the world does not
    relate to [p]. *)
Definition rmtree (p : string) : M unit := λ w,
  match fs w !! p with
  | Some (Dir _) => (set_fs (delete p) w, Ok ())
  | Some (File _) => (w, Raise (OSError "NotADirectoryError"))
  | None => (w, Raise (OSError "FileNotFoundError"))
  end.

(** [os.makedirs(p, exist_ok=True)], for a plain name [p]: there is no
    parent to create, and the empty path, on which the library fails, is
    not a plain name. *)
Definition makedirs (p : string) : M unit := λ w,
  match fs w !! p with
  | Some (Dir _) => (w, Ok ())
  | Some (File _) => (w, Raise (OSError "FileExistsError"))
  | None => (set_fs (insert p (Dir ∅)) w, Ok ())
  end.

(** [os.listdir(p)]: the names of the entries, in the order the
    directory yields them. *)
Definition listdir (p : string) : M (list string) := λ w,
  match fs w !! p with
  | Some (Dir entries) => (w, Ok (map_to_list entries).*1)
  | Some (File _) => (w, Raise (OSError "NotADirectoryError"))
  | None => (w, Raise (OSError "FileNotFoundError"))
  end.

(** Reading and writing the entry [name] of the directory [d]. *)
Definition read_file (d name : string) (w : world) : option string :=
  match fs w !! d with
  | Some (Dir entries) => entries !! name
  | _ => None
  end.

Definition write_file (d name content : string) : M unit := λ w,
  match fs w !! d with
  | Some (Dir entries) =>
      (set_fs (insert d (Dir (<[name := content]> entries))) w, Ok ())
  | Some (File _) => (w, Raise (OSError "NotADirectoryError"))
  | None => (w, Raise (OSError "FileNotFoundError"))
  end.

(** [shutil.copy2(src, dst)] with [src = join(d1, name)] and
    [dst = join(d2, name)]. *)
Definition copy2 (d1 d2 name : string) : M unit := λ w,
  match read_file d1 name w with
  | Some content =>
      if String.eqb d1 d2 then (w, Raise (OSError "SameFileError"))
      else write_file d2 name content w
  | None => (w, Raise (OSError "FileNotFoundError"))
  end.

(** [os.path.getsize(join(d, name))] *)
Definition path_getsize (d name : string) : M N := λ w,
  match read_file d name w with
  | Some content => (w, Ok (N.of_nat (String.length content)))
  | None => (w, Raise (OSError "FileNotFoundError"))
  end.

(** [print(s)] *)
Definition print (s : string) : M unit := λ w,
  (mk_world (fs w) (stdout w +:+ s +:+ nl) (ticks w), Ok ()).

End Os.

(** [sorted(names)]: by code points. *)
Definition sorted (names : list string) : list string :=
  merge_sort String.le names.

(** ** Feed rendering *)

(** An entry of [items]: the dict with the keys ['filename'], ['title'],
    ['length'] and ['url']. *)
Record item : Type := mk_item {
  it_filename : string;
  it_title : string;
  it_length : string;
  it_url : string
}.

Definition rfc2822_now (e : env) : M string := λ w,
  (mk_world (fs w) (stdout w) (S (ticks w)), Ok (clock e (ticks w))).

(** [f.write(s)] on the buffer of the open file. *)
Definition write (f s : string) : string := f +:+ s.

(** The GUID of line 41. *)
Definition guid_of (it : item) : string := it_url it +:+ "#" +:+ it_filename it.

(** The body of the [for it in items] loop of [build_feed]. *)
Definition build_feed_item (e : env) (f : string) (it : item) : M string :=
  pubdate ← rfc2822_now e;
  let guid := guid_of it in
  let f := write f ("    <item>" +:+ nl) in
  let f := write f ("      <title>" +:+ it_title it +:+ "</title>" +:+ nl) in
  let f := write f ("      <pubDate>" +:+ pubdate +:+ "</pubDate>" +:+ nl) in
  let f := write f ("      <guid isPermaLink=" +:+ dq +:+ "false" +:+ dq +:+ ">"
                    +:+ guid +:+ "</guid>" +:+ nl) in
  let f := write f ("      <enclosure url=" +:+ dq +:+ it_url it +:+ dq
                    +:+ " length=" +:+ dq +:+ it_length it +:+ dq
                    +:+ " type=" +:+ dq +:+ "audio/mpeg" +:+ dq +:+ " />" +:+ nl) in
  let f := write f ("    </item>" +:+ nl) in
  mret f.

(** [build_feed]; [out_file] is [join(out_dir, out_name)].  The file is
    created empty when it is opened and receives the buffer when the
    [with] block closes it. *)
Definition build_feed (e : env) (items : list item)
    (channel_title channel_link channel_description : string)
    (out_dir out_name : string) : M unit :=
  now ← rfc2822_now e;
  _ ← Os.write_file out_dir out_name "";
  let f := "" in
  let f := write f ("<?xml version=" +:+ dq +:+ "1.0" +:+ dq +:+ " encoding="
                    +:+ dq +:+ "UTF-8" +:+ dq +:+ "?>" +:+ nl) in
  let f := write f ("<rss version=" +:+ dq +:+ "2.0" +:+ dq +:+ ">" +:+ nl) in
  let f := write f ("  <channel>" +:+ nl) in
  let f := write f ("    <title>" +:+ channel_title +:+ "</title>" +:+ nl) in
  let f := write f ("    <link>" +:+ channel_link +:+ "</link>" +:+ nl) in
  let f := write f ("    <description>" +:+ channel_description
                    +:+ "</description>" +:+ nl) in
  let f := write f ("    <lastBuildDate>" +:+ now +:+ "</lastBuildDate>" +:+ nl) in
  f ← for_eachM items f (build_feed_item e);
  let f := write f ("  </channel>" +:+ nl) in
  let f := write f ("</rss>" +:+ nl) in
  Os.write_file out_dir out_name f.

(** ** [main] *)

Record args_t : Type := mk_args {
  arg_mp3_dir : string;
  arg_out : string;
  arg_num : Z;
  arg_site_url : string;
  arg_mode : mode_t;
  arg_channel_title : string;
  arg_channel_desc : string
}.

(** The candidate pool of line 76. *)
Definition is_mp3 (f : string) : bool := Py.endswith (Py.lower f) ".mp3".

Definition all_files_of (names : list string) : list string :=
  List.filter is_mp3 (sorted names).

(** The dict appended at lines 99-105; [site_url] is the stripped URL. *)
Definition new_item (site_url fn : string) (length : N) : item :=
  let url := site_url +:+ "/" +:+ fn in
  {| it_filename := fn;
     it_title := sanitize_title fn;
     it_length := Py.str_of_N length;
     it_url := url |}.

(** The body of the [for fn in chosen] loop of [main]. *)
Definition main_item (mp3_dir out_dir site_url : string)
    (items : list item) (fn : string) : M (list item) :=
  _ ← Os.copy2 mp3_dir out_dir fn;
  length ← Os.path_getsize out_dir fn;
  mret (items ++ [new_item site_url fn length])%list.

Definition main (e : env) (args : args_t) : M unit :=
  let mp3_dir := arg_mp3_dir args in
  let out_dir := arg_out args in
  let num := arg_num args in
  let site_url := Py.rstrip_char "/" (arg_site_url args) in
  let mode := arg_mode args in
  isdir ← Os.path_isdir mp3_dir;
  if negb isdir then raise (SystemExit ("mp3 dir not found: " +:+ mp3_dir)) else
  ex ← Os.path_exists out_dir;
  _ ← (if ex : bool then Os.rmtree out_dir else mret ());
  _ ← Os.makedirs out_dir;
  names ← Os.listdir mp3_dir;
  let all_files := all_files_of names in
  if bool_decide (all_files = []) then
    raise (SystemExit "No mp3 files found in mp3_dir")
  else
  chosen ← lift (select e all_files num mode);
  items ← for_eachM chosen ([] : list item) (main_item mp3_dir out_dir site_url);
  _ ← build_feed e items (arg_channel_title args) (arg_site_url args)
        (arg_channel_desc args) out_dir "feed.xml";
  Os.print ("Wrote " +:+ Py.str_of_N (N.of_nat (length items))
            +:+ " items to " +:+ OsPath.join out_dir "feed.xml").

(** ** Notions used to state the properties *)

(** The element of the pool at a (non-negative) position. *)
Definition pool_at (pool : list string) (k : Z) : option string :=
  pool !! Z.to_nat k.

(** The start index of the rotate window. *)
Definition start_of (e : env) (take N : Z) : Z := (today_index e * take) mod N.

(** *** Title derivation, in the words of the specification *)

Fixpoint contains (c : ascii) (s : string) : bool :=
  match s with
  | EmptyString => false
  | String a s' => Ascii.eqb a c || contains c s'
  end.

(** [split_last c s] cuts [s] around its last [c]. *)
Fixpoint split_last (c : ascii) (s : string) : option (string * string) :=
  match s with
  | EmptyString => None
  | String a s' =>
      match split_last c s' with
      | Some (l, r) => Some (String a l, r)
      | None => if Ascii.eqb a c then Some (EmptyString, s') else None
      end
  end.

Fixpoint all_dots (s : string) : bool :=
  match s with
  | EmptyString => true
  | String a s' => Ascii.eqb a "." && all_dots s'
  end.

(** A name without its extension.  The extension runs from the last dot
    of the name to its end; a name in which only dots precede that dot
    (a hidden file such as [.profile]) has no extension. *)
Definition stem_name (name : string) : string :=
  match split_last "." name with
  | Some (l, _) => if all_dots l then name else l
  | None => name
  end.

(** A path without its extension: the extension is that of the last
    component. *)
Definition stem (p : string) : string :=
  match split_last "/" p with
  | Some (dir, name) => dir +:+ "/" +:+ stem_name name
  | None => stem_name p
  end.

(** Underscores and hyphens become spaces, nothing else changes. *)
Definition sep_to_space (c : ascii) : ascii :=
  if Ascii.eqb c "_" || Ascii.eqb c "-" then " "%char else c.

Fixpoint map_chars (f : ascii → ascii) (s : string) : string :=
  match s with
  | EmptyString => EmptyString
  | String a s' => String (f a) (map_chars f s')
  end.

Fixpoint all_space (s : string) : bool :=
  match s with
  | EmptyString => true
  | String a s' => Py.isspace a && all_space s'
  end.

Definition starts_with_space (s : string) : bool :=
  match s with
  | EmptyString => false
  | String a _ => Py.isspace a
  end.

Fixpoint ends_with_space (s : string) : bool :=
  match s with
  | EmptyString => false
  | String a EmptyString => Py.isspace a
  | String _ s' => ends_with_space s'
  end.

(** [t] is [s] with the white space at both ends trimmed. *)
Definition trimmed_of (s t : string) : Prop :=
  ∃ l r, s = l +:+ t +:+ r
         ∧ all_space l = true ∧ all_space r = true
         ∧ starts_with_space t = false ∧ ends_with_space t = false.

(** *** The feed document, element by element *)

Definition link_line (channel_link : string) : string :=
  "    <link>" +:+ channel_link +:+ "</link>" +:+ nl.

Definition feed_header (channel_title channel_link channel_description now : string)
    : string :=
  "<?xml version=" +:+ dq +:+ "1.0" +:+ dq +:+ " encoding=" +:+ dq +:+ "UTF-8"
    +:+ dq +:+ "?>" +:+ nl
  +:+ "<rss version=" +:+ dq +:+ "2.0" +:+ dq +:+ ">" +:+ nl
  +:+ "  <channel>" +:+ nl
  +:+ "    <title>" +:+ channel_title +:+ "</title>" +:+ nl
  +:+ link_line channel_link
  +:+ "    <description>" +:+ channel_description +:+ "</description>" +:+ nl
  +:+ "    <lastBuildDate>" +:+ now +:+ "</lastBuildDate>" +:+ nl.

Definition guid_line (it : item) : string :=
  "      <guid isPermaLink=" +:+ dq +:+ "false" +:+ dq +:+ ">"
  +:+ it_url it +:+ "#" +:+ it_filename it +:+ "</guid>" +:+ nl.

Definition enclosure_line (it : item) : string :=
  "      <enclosure url=" +:+ dq +:+ it_url it +:+ dq
  +:+ " length=" +:+ dq +:+ it_length it +:+ dq
  +:+ " type=" +:+ dq +:+ "audio/mpeg" +:+ dq +:+ " />" +:+ nl.

(** One [<item>] block. *)
Definition item_block (pubdate : string) (it : item) : string :=
  "    <item>" +:+ nl
  +:+ "      <title>" +:+ it_title it +:+ "</title>" +:+ nl
  +:+ "      <pubDate>" +:+ pubdate +:+ "</pubDate>" +:+ nl
  +:+ guid_line it
  +:+ enclosure_line it
  +:+ "    </item>" +:+ nl.

(** The blocks of [items], in order; the [k]-th reading of the clock dates
    the first. *)
Fixpoint item_blocks (clock : nat → string) (k : nat) (items : list item)
    : string :=
  match items with
  | [] => ""
  | it :: items' => item_block (clock k) it +:+ item_blocks clock (S k) items'
  end.

Definition feed_footer : string := "  </channel>" +:+ nl +:+ "</rss>" +:+ nl.

(** The document for [items], the clock having been read [t] times
    before. *)
Definition feed_text (e : env) (t : nat) (items : list item)
    (channel_title channel_link channel_description : string) : string :=
  feed_header channel_title channel_link channel_description (clock e t)
  +:+ item_blocks (clock e) (S t) items
  +:+ feed_footer.

(** The number of positions of [s] at which [pat] occurs. *)
Fixpoint occurrences (pat s : string) : nat :=
  match s with
  | EmptyString => if String.prefix pat "" then 1 else 0
  | String _ s' => ((if String.prefix pat s then 1 else 0) + occurrences pat s')%nat
  end.

(** *** Trailing characters *)

Fixpoint last_char (s : string) : option ascii :=
  match s with
  | EmptyString => None
  | String a EmptyString => Some a
  | String _ s' => last_char s'
  end.

Fixpoint repeat_char (c : ascii) (k : nat) : string :=
  match k with
  | O => EmptyString
  | S k' => String c (repeat_char c k')
  end.

(** [p] names a directory. *)
Definition is_dir (p : string) (w : world) : Prop :=
  ∃ entries, fs w !! p = Some (Dir entries).

(** Every character of [s] is an underscore, a hyphen or white space. *)
Fixpoint all_sep_or_space (s : string) : bool :=
  match s with
  | EmptyString => true
  | String a s' =>
      (Ascii.eqb a "_" || Ascii.eqb a "-" || Py.isspace a) && all_sep_or_space s'
  end.

(** *** What a run leaves behind *)

(** The entries of the output directory once the files [chosen] have been
    copied from [entries], one after the other, into [m] (lines 94-97). *)
Definition copies_of (entries : gmap string string) (chosen : list string)
    (m : gmap string string) : gmap string string :=
  foldl (λ m fn, match entries !! fn with
                 | Some content => <[fn := content]> m
                 | None => m
                 end) m chosen.

(** The size in bytes of the entry [fn]. *)
Definition size_of (entries : gmap string string) (fn : string) : N :=
  N.of_nat (String.length (default "" (entries !! fn))).

(** The items built for [chosen] (lines 98-105). *)
Definition items_of (site_url : string) (entries : gmap string string)
    (chosen : list string) : list item :=
  (λ fn, new_item site_url fn (size_of entries fn)) <$> chosen.

(** The line printed at the end of a run (line 109). *)
Definition summary (out_dir : string) (count : nat) : string :=
  "Wrote " +:+ Py.str_of_N (N.of_nat count) +:+ " items to "
  +:+ OsPath.join out_dir "feed.xml".

(** The state in which a run gets past its checks: the source is a
    directory of [entries] with at least one candidate, the output path is
    another path and not a regular file. *)
Definition ready (args : args_t) (w : world) (entries : gmap string string)
    : Prop :=
  fs w !! arg_mp3_dir args = Some (Dir entries)
  ∧ (∀ c, fs w !! arg_out args ≠ Some (File c))
  ∧ arg_mp3_dir args ≠ arg_out args
  ∧ all_files_of (map_to_list entries).*1 ≠ [].

(** *** The file systems the model is exact for

    [fs] is one working directory, keyed by the names of its entries: a
    path is the key it is written with, so a path with a slash, an empty
    path, [.] and [..] have no counterpart in it, and two spellings of
    one directory would be two keys.  The properties that say which
    paths a run changes, or that a run ends well, are therefore stated
    for plain names, in a world all of whose names are plain. *)

(** A name of an entry: not empty, without a slash, neither [.] nor
    [..]. *)
Definition plain_nameb (p : string) : bool :=
  negb (String.eqb p "") && negb (contains "/" p)
  && negb (String.eqb p ".") && negb (String.eqb p "..").

Definition plain_name (p : string) : Prop := plain_nameb p = true.

Definition tidy_nodeb (n : node) : bool :=
  match n with
  | File _ => true
  | Dir entries => forallb plain_nameb (map_to_list entries).*1
  end.

(** Every path of the world, and every entry of its directories, is a
    plain name. *)
Definition tidyb (w : world) : bool :=
  forallb (λ pn, plain_nameb pn.1 && tidy_nodeb pn.2) (map_to_list (fs w)).

Definition tidy (w : world) : Prop := tidyb w = true.

(** Source and output are plain names of a world of plain names. *)
Definition flat (args : args_t) (w : world) : Prop :=
  plain_name (arg_mp3_dir args) ∧ plain_name (arg_out args) ∧ tidy w.

(** The largest pool for which [random.sample] runs its swap loop
    whatever the count: the library's [setsize] is 21, or more when the
    count is above 5. *)
Definition swap_limit : Z := 21.

(** The selection is the one the code makes: rotate mode, or random mode
    on a pool for which [Random.sample] is the library's branch. *)
Definition swap_exact (args : args_t) (pool : list string) : Prop :=
  arg_mode args = rotate ∨ Py.len pool <= swap_limit.

(** * Properties *)

(** ** Built-ins *)

Lemma len_nonneg {A : Type} (l : list A) : 0 <= Py.len l.
Proof. unfold Py.len. lia. Qed.

Lemma len_pos {A : Type} (l : list A) : l ≠ [] → 0 < Py.len l.
Proof. unfold Py.len. destruct l; [done | simpl; lia]. Qed.

Lemma min_spec (a b : Z) : Py.min a b = Z.min a b.
Proof. unfold Py.min. destruct (Z.ltb_spec b a); lia. Qed.

Lemma mod_ok (a b : Z) : b ≠ 0 → Py.mod_ a b = Ok (a mod b).
Proof. intros Hb. unfold Py.mod_. by destruct (Z.eqb_spec b 0). Qed.

Lemma getitem_ok {A : Type} (l : list A) (i : Z) :
  0 <= i < Py.len l →
  ∃ x, Py.getitem l i = Ok x ∧ l !! Z.to_nat i = Some x.
Proof.
  intros Hi. unfold Py.getitem.
  destruct (Z.ltb_spec i 0) as [|_]; [lia|].
  destruct (Z.leb_spec 0 i); [|lia].
  destruct (Z.ltb_spec i (Py.len l)); [|lia]. simpl.
  destruct (l !! Z.to_nat i) as [x|] eqn:Hx; [by exists x|].
  apply lookup_ge_None in Hx. unfold Py.len in *. lia.
Qed.

Lemma range_length (k : Z) : Py.len (Py.range k) = Z.max 0 k.
Proof. unfold Py.range, Py.len. rewrite length_fmap, length_seq. lia. Qed.

Lemma range_lookup (k i : Z) :
  0 <= i < k → Py.range k !! Z.to_nat i = Some i.
Proof.
  intros Hi. unfold Py.range. rewrite list_lookup_fmap.
  rewrite lookup_seq_lt by lia. simpl. f_equal. lia.
Qed.

Lemma range_nonpos (k : Z) : k <= 0 → Py.range k = [].
Proof. intros Hk. unfold Py.range. by replace (Z.to_nat k) with 0%nat by lia. Qed.

Lemma elem_of_range (k i : Z) : i ∈ Py.range k ↔ 0 <= i < k.
Proof.
  unfold Py.range. rewrite list_elem_of_fmap. split.
  - intros (j & -> & Hj). apply elem_of_seq in Hj. lia.
  - intros Hi. exists (Z.to_nat i). split; [lia|]. apply elem_of_seq. lia.
Qed.

Lemma NoDup_range (k : Z) : NoDup (Py.range k).
Proof.
  unfold Py.range. apply NoDup_fmap_2; [|apply NoDup_seq].
  intros x y. lia.
Qed.

(** ** The rotate window *)

Section rotate.
Variable pool : list string.
Hypothesis pool_nonempty : pool ≠ [].

Lemma rotate_index_range (start i : Z) : 0 <= (start + i) mod (Py.len pool) < (Py.len pool).
Proof. apply Z.mod_pos_bound. by apply len_pos. Qed.

(** The loop of lines 90-91 appends, for each [i], the pool element at
    [(start + i) % n]; it cannot raise. *)
Lemma rotate_loop (start : Z) (xs : list Z) (acc : list string) :
  ∃ ys,
    for_each xs acc
      (λ chosen i,
         idx ← Py.mod_ (start + i) (Py.len pool);
         x ← Py.getitem pool idx;
         Ok (chosen ++ [x])%list) = Ok (acc ++ ys)%list
    ∧ Forall2 (λ i y, pool_at pool ((start + i) mod (Py.len pool)) = Some y) xs ys.
Proof.
  revert acc. induction xs as [|i xs IH]; intros acc; simpl.
  - exists []. by rewrite app_nil_r.
  - rewrite mod_ok by (pose proof (len_pos pool pool_nonempty); lia).
    destruct (getitem_ok pool ((start + i) mod (Py.len pool)) (rotate_index_range start i))
      as (x & Hget & Hx).
    cbn. rewrite Hget. cbn.
    destruct (IH (acc ++ [x])%list) as (ys & Hys & Hall).
    exists (x :: ys). split.
    + rewrite Hys. by rewrite <- app_assoc.
    + by constructor.
Qed.

Lemma rotate_chosen_ok (take d : Z) :
  ∃ result,
    rotate_chosen pool take d = Ok result
    ∧ Forall2 (λ i y, pool_at pool (((d * take) mod (Py.len pool) + i) mod (Py.len pool)) = Some y)
        (Py.range take) result.
Proof.
  unfold rotate_chosen.
  rewrite mod_ok by (pose proof (len_pos pool pool_nonempty); lia).
  cbn. destruct (rotate_loop ((d * take) mod (Py.len pool)) (Py.range take) [])
    as (ys & Hys & Hall).
  exists ys. by split.
Qed.

(** The positions of a window no longer than the pool are pairwise
    distinct. *)
Lemma window_positions_inj (start take i j : Z) :
  take <= (Py.len pool) → 0 <= i < take → 0 <= j < take →
  (start + i) mod (Py.len pool) = (start + j) mod (Py.len pool) → i = j.
Proof.
  intros Htake Hi Hj Heq.
  assert (Hn : 0 < (Py.len pool)) by by apply len_pos.
  assert (Hd : ((start + i) - (start + j)) mod (Py.len pool) = 0).
  { rewrite Zminus_mod, Heq, Z.sub_diag. apply Z.mod_0_l. lia. }
  replace (start + i - (start + j)) with (i - j) in Hd by lia.
  apply Z.mod_divide in Hd; [|lia].
  destruct Hd as [q Hq].
  destruct (Z.lt_trichotomy q 0) as [Hq0|[Hq0|Hq0]]; nia.
Qed.

End rotate.

Section window.
Variables (pool result : list string) (start take : Z).
Hypothesis pool_nonempty : pool ≠ [].
Hypothesis is_window :
  Forall2 (λ i y, pool_at pool ((start + i) mod Py.len pool) = Some y)
    (Py.range take) result.

Lemma window_length : Py.len result = Z.max 0 take.
Proof.
  rewrite <- range_length. unfold Py.len.
  by rewrite (Forall2_length _ _ _ is_window).
Qed.

Lemma window_lookup (i : Z) :
  0 <= i < take →
  ∃ x, pool_at result i = Some x
       ∧ pool_at pool ((start + i) mod Py.len pool) = Some x.
Proof.
  intros Hi.
  destruct (Forall2_lookup_l _ _ _ _ _ is_window (range_lookup take i Hi))
    as (x & Hx & Hp).
  by exists x.
Qed.

Lemma window_lookup_inv (a : nat) (x : string) :
  result !! a = Some x →
  0 <= Z.of_nat a < take
  ∧ pool_at pool ((start + Z.of_nat a) mod Py.len pool) = Some x.
Proof.
  intros Hx.
  destruct (Forall2_lookup_r _ _ _ _ _ is_window Hx) as (i & Hi & Hp).
  assert (Ha : (a < length (Py.range take))%nat) by by eapply lookup_lt_Some.
  pose proof (range_length take) as Hlen. unfold Py.len in Hlen.
  assert (Hr : 0 <= Z.of_nat a < take) by lia.
  pose proof (range_lookup take (Z.of_nat a) Hr) as Hi'.
  rewrite Nat2Z.id in Hi'. by simplify_eq.
Qed.

Lemma window_NoDup : take <= Py.len pool → NoDup pool → NoDup result.
Proof.
  intros Htake Hnd. apply NoDup_alt. intros a b x Ha Hb.
  apply window_lookup_inv in Ha as [Hra Hpa].
  apply window_lookup_inv in Hb as [Hrb Hpb].
  unfold pool_at in *.
  pose proof (NoDup_lookup _ _ _ _ Hnd Hpa Hpb) as Heq.
  pose proof (rotate_index_range pool pool_nonempty start (Z.of_nat a)).
  pose proof (rotate_index_range pool pool_nonempty start (Z.of_nat b)).
  assert (Z.of_nat a = Z.of_nat b); [|lia].
  eapply (window_positions_inj pool pool_nonempty start take); [done..|lia].
Qed.

End window.

(** The selector in rotate mode, for a non-empty pool. *)
Lemma select_rotate_ok (e : env) (pool : list string) (num : Z) :
  pool ≠ [] →
  ∃ result,
    select e pool num rotate = Ok result
    ∧ Forall2
        (λ i y, pool_at pool
                  ((start_of e (Py.min num (Py.len pool)) (Py.len pool) + i)
                   mod Py.len pool) = Some y)
        (Py.range (Py.min num (Py.len pool))) result.
Proof.
  intros Hne. unfold select, start_of.
  apply (rotate_chosen_ok pool Hne).
Qed.

(** When the window is as long as the pool it starts at 0 and is the pool
    itself. *)
Lemma start_full (d n : Z) : (d * n) mod n = 0.
Proof. apply Z_mod_mult. Qed.

Lemma rotate_chosen_full (pool : list string) (d : Z) :
  pool ≠ [] → rotate_chosen pool (Py.len pool) d = Ok pool.
Proof.
  intros Hne.
  destruct (rotate_chosen_ok pool Hne (Py.len pool) d) as (result & -> & Hw).
  f_equal. rewrite start_full in Hw.
  pose proof (window_length _ _ _ _ Hw) as Hlen.
  pose proof (len_nonneg pool) as Hn.
  apply list_eq. intros a.
  destruct (decide (Z.of_nat a < Py.len pool)) as [Ha|Ha].
  - destruct (window_lookup _ _ _ _ Hw (Z.of_nat a)) as (x & Hr & Hp); [lia|].
    unfold pool_at in *. rewrite Nat2Z.id in Hr.
    rewrite Z.add_0_l, Z.mod_small, Nat2Z.id in Hp by lia. congruence.
  - rewrite !lookup_ge_None_2; [done|unfold Py.len in *; lia..].
Qed.

(** ** Dates *)

Lemma days_before_year_succ (y : Z) :
  Date.days_before_year (y + 1)
  = Date.days_before_year y + 365 + (if Date.is_leap y then 1 else 0).
Proof.
  unfold Date.days_before_year, Date.is_leap.
  replace (y + 1 - 1) with y by lia.
  destruct (Z.eqb_spec (y mod 4) 0), (Z.eqb_spec (y mod 100) 0),
    (Z.eqb_spec (y mod 400) 0); simpl;
    Z.div_mod_to_equations; lia.
Qed.

Lemma days_before_year_mono (y y' : Z) :
  y <= y' → Date.days_before_year y <= Date.days_before_year y'.
Proof.
  intros Hle. replace y' with (y + Z.of_nat (Z.to_nat (y' - y))) by lia.
  induction (Z.to_nat (y' - y)) as [|k IH].
  - by rewrite Z.add_0_r.
  - replace (y + Z.of_nat (S k)) with (y + Z.of_nat k + 1) by lia.
    rewrite days_before_year_succ. destruct (Date.is_leap _); lia.
Qed.

(** A valid date lies within its year. *)
Lemma day_of_year_bound (d : Date.date) :
  Date.valid d →
  1 <= Date.days_before_month (Date.year d) (Date.month d) + Date.day d
    <= 365 + (if Date.is_leap (Date.year d) then 1 else 0).
Proof.
  destruct d as [y m dd]. unfold Date.valid. simpl. intros (_ & Hm & Hd).
  unfold Date.days_before_month, Date.days_in_month in *.
  assert (Hcases : m = 1 ∨ m = 2 ∨ m = 3 ∨ m = 4 ∨ m = 5 ∨ m = 6 ∨ m = 7
                   ∨ m = 8 ∨ m = 9 ∨ m = 10 ∨ m = 11 ∨ m = 12) by lia.
  destruct (Date.is_leap y);
    repeat (destruct Hcases as [->|Hcases]; [simpl in *; lia|]);
    subst; simpl in *; lia.
Qed.

Lemma toordinal_year_bounds (d : Date.date) :
  Date.valid d →
  Date.days_before_year (Date.year d) < Date.toordinal d
    <= Date.days_before_year (Date.year d + 1).
Proof.
  intros Hv. pose proof (day_of_year_bound d Hv) as Hb.
  unfold Date.toordinal, Date.ymd2ord. rewrite days_before_year_succ. lia.
Qed.

(** The comparison of dates agrees with the order of their ordinals. *)
Lemma toordinal_lt (d1 d2 : Date.date) :
  Date.valid d1 → Date.valid d2 → Date.year d1 < Date.year d2 →
  Date.toordinal d1 < Date.toordinal d2.
Proof.
  intros Hv1 Hv2 Hy.
  pose proof (toordinal_year_bounds d1 Hv1).
  pose proof (toordinal_year_bounds d2 Hv2).
  pose proof (days_before_year_mono (Date.year d1 + 1) (Date.year d2)).
  lia.
Qed.

Lemma epoch_date_valid : Date.valid epoch_date.
Proof. unfold Date.valid. simpl. vm_compute. intuition discriminate. Qed.

Lemma before_epoch_negative (e : env) :
  Date.valid (today e) → Date.lt (today e) epoch_date → today_index e < 0.
Proof.
  intros Hv Hlt. unfold today_index, epoch.
  assert (Hy : Date.year (today e) < Date.year epoch_date).
  { destruct Hv as (_ & Hm & Hd). destruct Hlt as [Hlt|(_ & [Hlt|[_ Hlt]])];
      simpl in *; lia. }
  pose proof (toordinal_lt _ _ Hv epoch_date_valid Hy). lia.
Qed.

(** ** [random.sample] *)

Lemma insert_swap_Permutation {A : Type} (l : list A) (j : nat) (x y : A) :
  l !! j = Some x → <[j := y]> l ++ [x] ≡ₚ l ++ [y].
Proof.
  intros Hx. pose proof (lookup_lt_Some _ _ _ Hx) as Hj.
  rewrite insert_take_drop by done.
  rewrite <- (take_drop_middle l j x Hx) at 3.
  rewrite <- !app_assoc. simpl. apply Permutation_app_head.
  rewrite <- (Permutation_cons_append _ x), <- (Permutation_cons_append _ y).
  apply perm_swap.
Qed.

Section sample_loop.
Context {A : Type}.
Variables (draw : nat → nat) (population : list A) (n : nat).
Hypothesis n_def : n = length population.

(** The invariant of the selection loop: the live prefix of the pool
    together with what was emitted is the population, rearranged. *)
Lemma sample_loop (k i : nat) (pool result : list A) :
  (i + k <= n)%nat → length pool = n →
  take (n - i) pool ++ result ≡ₚ population →
  ∃ pool' result',
    for_each (seq i k) (pool, result) (Random.sample_step n draw)
      = Ok (pool', result')
    ∧ length pool' = n
    ∧ take (n - i - k) pool' ++ result' ≡ₚ population
    ∧ length result' = (length result + k)%nat.
Proof.
  revert i pool result.
  induction k as [|k IH]; intros i pool result Hik Hlen Hperm; simpl.
  - exists pool, result. rewrite Nat.sub_0_r, Nat.add_0_r. by repeat split.
  - remember (draw i `mod` (n - i))%nat as j eqn:Ej.
    assert (Hj : (j < n - i)%nat) by (subst j; apply Nat.mod_upper_bound; lia).
    destruct (lookup_lt_is_Some_2 pool j) as [x Hx]; [lia|].
    destruct (lookup_lt_is_Some_2 pool (n - i - 1)) as [y Hy]; [lia|].
    rewrite Hx, Hy. cbn.
    destruct (IH (S i) (<[j := y]> pool) (result ++ [x])%list)
      as (pool' & result' & Hrun & Hlen' & Hperm' & Hres).
    + lia.
    + by rewrite length_insert.
    + rewrite <- Hperm.
      replace (n - i)%nat with (S (n - S i)) by lia.
      rewrite (take_S_r pool (n - S i) y) by (rewrite <- Hy; f_equal; lia).
      destruct (decide (j = n - S i)%nat) as [Heq|Hne].
      * rewrite take_insert_ge by lia.
        assert (x = y) as <-.
        { replace (n - i - 1)%nat with j in Hy by lia. congruence. }
        rewrite <- !app_assoc. apply Permutation_app_head.
        apply Permutation_app_comm.
      * rewrite take_insert_lt by lia.
        rewrite (Permutation_app_comm result [x]), app_assoc.
        rewrite insert_swap_Permutation
          by (rewrite lookup_take_lt by lia; done).
        done.
    + exists pool', result'. repeat split; [done..| |].
      * by replace (n - i - S k)%nat with (n - S i - k)%nat by lia.
      * rewrite Hres, length_app. simpl. lia.
Qed.

End sample_loop.

Section sample.
Context {A : Type}.
Variables (draw : nat → nat) (population : list A).

Lemma sample_ok (k : Z) :
  0 <= k <= Py.len population →
  ∃ result,
    Random.sample draw population k = Ok result
    ∧ Py.len result = k
    ∧ ∃ rest, result ++ rest ≡ₚ population.
Proof.
  intros Hk. unfold Random.sample.
  destruct (Z.leb_spec 0 k); [|lia].
  destruct (Z.leb_spec k (Py.len population)); [|lia]. simpl.
  destruct (sample_loop draw population (length population) eq_refl
              (Z.to_nat k) 0 population [])
    as (pool' & result' & Hrun & Hlen & Hperm & Hres).
  - unfold Py.len in *. lia.
  - done.
  - rewrite app_nil_r, Nat.sub_0_r. by rewrite take_ge.
  - rewrite Hrun. cbn. exists result'. split; [done|]. split.
    + unfold Py.len. rewrite Hres. simpl. lia.
    + exists (take (length population - 0 - Z.to_nat k) pool').
      by rewrite Permutation_app_comm.
Qed.

Lemma sample_negative (k : Z) :
  k < 0 →
  Random.sample draw population k
  = Raise (ValueError "Sample larger than population or is negative").
Proof.
  intros Hk. unfold Random.sample. by destruct (Z.leb_spec 0 k); [lia|].
Qed.

Lemma sample_full :
  ∃ result,
    Random.sample draw population (Py.len population) = Ok result
    ∧ result ≡ₚ population.
Proof.
  destruct (sample_ok (Py.len population)) as (result & Hrun & Hlen & rest & Hp).
  { pose proof (len_nonneg population). lia. }
  exists result. split; [done|].
  assert (rest = []) as ->.
  { apply Permutation_length in Hp. rewrite length_app in Hp.
    unfold Py.len in Hlen. apply nil_length_inv. lia. }
  by rewrite app_nil_r in Hp.
Qed.

End sample.

(** ** The selector *)

(** C1: for a non-empty pool of N distinct filenames and a positive count,
    rotate mode returns [take = min(count, N)] distinct filenames, the
    i-th being [pool[(start + i) mod N]] with
    [start = (dayIndex * take) mod N]; with N = 5 and take = 2 the result
    is [pool[0], pool[1]] on 2020-01-01 (day index 0) and
    [pool[2], pool[3]] on 2020-01-02 (day index 1). *)
Theorem C1_rotate_window (e : env) (pool : list string) (num : Z) :
  pool ≠ [] → NoDup pool → 0 < num →
  let N := Py.len pool in
  let take := Py.min num N in
  let start := start_of e take N in
  (0 < take <= N ∧ 0 <= start < N
   ∧ ∃ result,
       select e pool num rotate = Ok result
       ∧ Py.len result = take
       ∧ NoDup result
       ∧ (∀ x, x ∈ result → x ∈ pool)
       ∧ ∀ i, 0 <= i < take →
           ∃ x, pool_at result i = Some x
                ∧ pool_at pool ((start + i) mod N) = Some x)
  ∧ (∀ e0 p0 p1 p2 p3 p4, today e0 = Date.mk_date 2020 1 1 →
       today_index e0 = 0
       ∧ select e0 [p0; p1; p2; p3; p4] 2 rotate = Ok [p0; p1])
  ∧ (∀ e1 p0 p1 p2 p3 p4, today e1 = Date.mk_date 2020 1 2 →
       today_index e1 = 1
       ∧ select e1 [p0; p1; p2; p3; p4] 2 rotate = Ok [p2; p3]).
Proof.
  intros Hne Hnd Hnum N take start.
  pose proof (len_pos pool Hne) as HN. fold N in HN.
  assert (Htake : 0 < take <= N) by (unfold take; rewrite min_spec; lia).
  split; [|split].
  - split; [done|]. split; [by apply Z.mod_pos_bound|].
    destruct (select_rotate_ok e pool num Hne) as (result & Hsel & Hw).
    fold N take start in Hw.
    exists result. split; [done|].
    split; [rewrite (window_length _ _ _ _ Hw); lia|].
    split; [apply (window_NoDup pool result start take Hne Hw); [lia|done]|].
    split; [|by apply (window_lookup _ _ _ _ Hw)].
    intros x [a Ha]%list_elem_of_lookup.
    apply (window_lookup_inv _ _ _ _ Hw) in Ha as [_ Hp].
    by eapply list_elem_of_lookup_2.
  - intros e0 p0 p1 p2 p3 p4 Hd. unfold select, today_index. by rewrite Hd.
  - intros e1 p0 p1 p2 p3 p4 Hd. unfold select, today_index. by rewrite Hd.
Qed.

Lemma C1_rotate_window_witness :
  let e := mk_env (Date.mk_date 2024 3 9) (λ _, "") (λ i, i) in
  let pool := ["a.mp3"; "b.mp3"; "c.mp3"] in
  pool ≠ [] ∧ NoDup pool ∧ 0 < 2
  ∧ ∃ result,
      select e pool 2 rotate = Ok result
      ∧ Py.len result = 2 ∧ NoDup result
      ∧ pool_at result 0 = pool_at pool ((start_of e 2 3 + 0) mod 3)
      ∧ pool_at result 1 = pool_at pool ((start_of e 2 3 + 1) mod 3).
Proof.
  intros e pool.
  assert (Hne : pool ≠ []) by done.
  assert (Hnd : NoDup pool) by (by apply (bool_decide_unpack _)).
  assert (Hnum : 0 < 2) by lia.
  repeat split; [done..|].
  destruct (C1_rotate_window e pool 2 Hne Hnd Hnum)
    as [(_ & _ & result & Hsel & Hlen & Hnd' & _ & Hat) _].
  exists result. repeat split; [done..| |].
  - destruct (Hat 0) as (x & -> & Hx); [done|]. by rewrite <- Hx.
  - destruct (Hat 1) as (x & -> & Hx); [done|]. by rewrite <- Hx.
Defined.

(** C3 (as the code has it): for a non-empty pool and a count [<= 0],
    rotate mode selects nothing; random mode selects nothing when the
    count is 0 and raises [ValueError] when it is negative. *)
Theorem C3_nonpositive_count (e : env) (pool : list string) (count : Z) :
  pool ≠ [] → count <= 0 →
  select e pool count rotate = Ok []
  ∧ (count = 0 → select e pool count random = Ok [])
  ∧ (count < 0 →
       select e pool count random
       = Raise (ValueError "Sample larger than population or is negative")).
Proof.
  intros Hne Hcount. pose proof (len_pos pool Hne) as HN.
  assert (Htake : Py.min count (Py.len pool) = count) by (rewrite min_spec; lia).
  unfold select. rewrite Htake. split; [|split].
  - unfold rotate_chosen. rewrite mod_ok by lia. cbn.
    by rewrite range_nonpos.
  - intros ->.
    destruct (sample_ok (draw e) pool 0) as (r & -> & Hlen & _); [lia|].
    f_equal. apply nil_length_inv. unfold Py.len in Hlen. lia.
  - intros Hneg. by apply sample_negative.
Qed.

Lemma C3_nonpositive_count_witness :
  let e := mk_env (Date.mk_date 2024 3 9) (λ _, "") (λ i, i) in
  ["a.mp3"; "b.mp3"] ≠ [] ∧ -3 <= 0
  ∧ select e ["a.mp3"; "b.mp3"] (-3) rotate = Ok [].
Proof.
  intros e.
  assert (Hne : ["a.mp3"; "b.mp3"] ≠ []) by done.
  assert (Hc : -3 <= 0) by lia.
  split; [exact Hne|]. split; [exact Hc|].
  exact (proj1 (C3_nonpositive_count e ["a.mp3"; "b.mp3"] (-3) Hne Hc)).
Defined.

(** C3, as stated, fails: in random mode a negative count is an error, not
    an empty selection. *)
Lemma C3_counterexample :
  let e := mk_env (Date.mk_date 2024 3 9) (λ _, "") (λ i, i) in
  ["a.mp3"] ≠ [] ∧ -1 <= 0
  ∧ select e ["a.mp3"] (-1) random
    = Raise (ValueError "Sample larger than population or is negative")
  ∧ ¬ ∃ result, select e ["a.mp3"] (-1) random = Ok result.
Proof.
  intros e. split; [done|]. split; [lia|]. split; [reflexivity|].
  intros [result Hres]. vm_compute in Hres. discriminate.
Qed.

(** C4: for a date before the epoch 2020-01-01 the day index is negative,
    and still the start index [(dayIndex * take) % N] lies in [0, N) and
    the selection is the circular window read at non-negative positions. *)
Theorem C4_before_epoch (e : env) (pool : list string) (num : Z) :
  Date.valid (today e) → Date.lt (today e) epoch_date →
  pool ≠ [] → 0 < num →
  let N := Py.len pool in
  let take := Py.min num N in
  let start := start_of e take N in
  today_index e < 0
  ∧ 0 < take <= N
  ∧ Py.mod_ (today_index e * take) N = Ok start
  ∧ 0 <= start < N
  ∧ today_index e * take = N * ((today_index e * take) / N) + start
  ∧ ∃ result,
      select e pool num rotate = Ok result
      ∧ Py.len result = take
      ∧ ∀ i, 0 <= i < take →
          0 <= (start + i) mod N < N
          ∧ ∃ x, pool_at result i = Some x
                 ∧ Py.getitem pool ((start + i) mod N) = Ok x
                 ∧ pool_at pool ((start + i) mod N) = Some x.
Proof.
  intros Hv Hlt Hne Hnum N take start.
  pose proof (len_pos pool Hne) as HN. fold N in HN.
  assert (Htake : 0 < take <= N) by (unfold take; rewrite min_spec; lia).
  split; [by apply before_epoch_negative|].
  split; [done|].
  split; [by apply mod_ok; lia|].
  split; [by apply Z.mod_pos_bound|].
  split; [apply Z.div_mod; lia|].
  destruct (select_rotate_ok e pool num Hne) as (result & Hsel & Hw).
  fold N take start in Hw.
  exists result. split; [done|].
  split; [rewrite (window_length _ _ _ _ Hw); lia|].
  intros i Hi.
  pose proof (rotate_index_range pool Hne start i) as Hr. fold N in Hr.
  split; [done|].
  destruct (window_lookup _ _ _ _ Hw i Hi) as (x & Hx & Hp).
  destruct (getitem_ok pool ((start + i) mod N) Hr) as (y & Hget & Hy).
  exists x. unfold pool_at in *. fold N in Hp. by simplify_eq.
Qed.

Lemma C4_before_epoch_witness :
  let e := mk_env (Date.mk_date 2019 12 31) (λ _, "") (λ i, i) in
  let pool := ["a.mp3"; "b.mp3"; "c.mp3"; "d.mp3"; "e.mp3"] in
  Date.valid (today e) ∧ Date.lt (today e) epoch_date
  ∧ today_index e = -1 ∧ start_of e 2 5 = 3
  ∧ select e pool 2 rotate = Ok ["d.mp3"; "e.mp3"]
  ∧ ∃ result, select e pool 2 rotate = Ok result ∧ Py.len result = 2.
Proof.
  intros e pool.
  assert (Hv : Date.valid (today e)).
  { unfold Date.valid. vm_compute. intuition discriminate. }
  assert (Hlt : Date.lt (today e) epoch_date) by (left; simpl; lia).
  assert (Hne : pool ≠ []) by done.
  assert (Hnum : 0 < 2) by lia.
  repeat split; [done..|].
  destruct (C4_before_epoch e pool 2 Hv Hlt Hne Hnum)
    as (_ & _ & _ & _ & _ & result & Hsel & Hlen & _).
  by exists result.
Defined.

(** C7: for a non-empty pool of size N and a count above N, [take] is N and
    the whole pool is selected without error: in rotate mode the pool
    itself, in random mode a rearrangement of it. *)
Theorem C7_count_above_pool (e : env) (pool : list string) (count : Z) :
  pool ≠ [] → Py.len pool < count →
  Py.min count (Py.len pool) = Py.len pool
  ∧ select e pool count rotate = Ok pool
  ∧ ∃ result,
      select e pool count random = Ok result
      ∧ result ≡ₚ pool ∧ Py.len result = Py.len pool.
Proof.
  intros Hne Hcount.
  assert (Htake : Py.min count (Py.len pool) = Py.len pool)
    by (rewrite min_spec; lia).
  split; [done|]. unfold select. rewrite Htake. split.
  - by apply rotate_chosen_full.
  - destruct (sample_full (draw e) pool) as (result & Hrun & Hperm).
    exists result. repeat split; [done..|].
    unfold Py.len. by rewrite (Permutation_length Hperm).
Qed.

Lemma C7_count_above_pool_witness :
  let e := mk_env (Date.mk_date 2024 3 9) (λ _, "") (λ i, i * 5 + 1)%nat in
  let pool := ["a.mp3"; "b.mp3"; "c.mp3"] in
  pool ≠ [] ∧ Py.len pool < 10
  ∧ select e pool 10 rotate = Ok pool
  ∧ ∃ result, select e pool 10 random = Ok result ∧ result ≡ₚ pool.
Proof.
  intros e pool.
  assert (Hne : pool ≠ []) by done.
  assert (Hc : Py.len pool < 10) by (vm_compute; done).
  destruct (C7_count_above_pool e pool 10 Hne Hc)
    as (_ & Hrot & result & Hrnd & Hperm & _).
  repeat split; [done..|]. by exists result.
Defined.

(** C8: when the count is at least the pool size, [take] is N, the rotate
    start index is 0 whatever the date, and the selection is the pool in
    its own order. *)
Theorem C8_full_window_start (e : env) (pool : list string) (count : Z) :
  pool ≠ [] → Py.len pool <= count →
  let N := Py.len pool in
  let take := Py.min count N in
  take = N
  ∧ Py.mod_ (today_index e * take) N = Ok 0
  ∧ start_of e take N = 0
  ∧ select e pool count rotate = Ok pool
  ∧ ∀ e', select e' pool count rotate = select e pool count rotate.
Proof.
  intros Hne Hcount N take. pose proof (len_pos pool Hne) as HN. fold N in HN.
  assert (Htake : take = N) by (unfold take; rewrite min_spec; lia).
  assert (Hsel : ∀ e0, select e0 pool count rotate = Ok pool).
  { intros e0. unfold select. fold N take. rewrite Htake.
    by apply rotate_chosen_full. }
  split; [done|]. rewrite Htake. unfold start_of. rewrite start_full.
  split; [rewrite mod_ok by lia; by rewrite start_full|].
  split; [done|]. split; [done|]. intros e'. by rewrite !Hsel.
Qed.

Lemma C8_full_window_start_witness :
  let e := mk_env (Date.mk_date 2031 7 4) (λ _, "") (λ i, i) in
  let pool := ["a.mp3"; "b.mp3"; "c.mp3"] in
  pool ≠ [] ∧ Py.len pool <= 3
  ∧ start_of e (Py.min 3 (Py.len pool)) (Py.len pool) = 0
  ∧ select e pool 3 rotate = Ok pool.
Proof.
  intros e pool.
  assert (Hne : pool ≠ []) by done.
  assert (Hc : Py.len pool <= 3) by (vm_compute; discriminate).
  destruct (C8_full_window_start e pool 3 Hne Hc) as (_ & _ & Hstart & Hsel & _).
  by repeat split.
Defined.

(** ** Strings *)

Lemma str_app_nil_l (s : string) : "" +:+ s = s.
Proof. reflexivity. Qed.

Lemma str_app_cons (c : ascii) (a b : string) :
  String c a +:+ b = String c (a +:+ b).
Proof. reflexivity. Qed.

Lemma str_app_nil_r (s : string) : s +:+ "" = s.
Proof. induction s as [|c s IH]; [done|]. by rewrite str_app_cons, IH. Qed.

Lemma str_app_assoc (a b c : string) : (a +:+ b) +:+ c = a +:+ b +:+ c.
Proof.
  induction a as [|x a IH]; [done|]. by rewrite !str_app_cons, IH.
Qed.

Lemma str_length_app (a b : string) :
  String.length (a +:+ b) = (String.length a + String.length b)%nat.
Proof.
  induction a as [|x a IH]; [done|]. rewrite str_app_cons. simpl. by rewrite IH.
Qed.

Lemma substring_0_0 (s : string) : substring 0 0 s = "".
Proof. by destruct s. Qed.

Lemma substring_prefix (a b : string) :
  substring 0 (String.length a) (a +:+ b) = a.
Proof.
  induction a as [|x a IH]; [apply substring_0_0|].
  rewrite str_app_cons. simpl. by rewrite IH.
Qed.

Lemma substring_skip (a b : string) (m : nat) :
  substring (String.length a) m (a +:+ b) = substring 0 m b.
Proof. induction a as [|x a IH]; [done|]. rewrite str_app_cons. by simpl. Qed.

Lemma substring_all (s : string) : substring 0 (String.length s) s = s.
Proof. induction s as [|x s IH]; [done|]. simpl. by rewrite IH. Qed.

Lemma str_app_inj_length (a b x y : string) :
  String.length a = String.length b → a +:+ x = b +:+ y → a = b ∧ x = y.
Proof.
  revert b. induction a as [|c a IH]; intros [|d b] Hlen Heq;
    simpl in Hlen; try done.
  rewrite !str_app_cons in Heq. injection Heq as -> Heq.
  destruct (IH b) as [-> ->]; [lia|done|done].
Qed.

(** ** Title derivation *)

Lemma replace_sep_to_space (s : string) :
  Py.replace "-" " " (Py.replace "_" " " s) = map_chars sep_to_space s.
Proof.
  induction s as [|c s IH]; [done|]. simpl. rewrite IH. f_equal.
  unfold sep_to_space.
  destruct (Ascii.eqb_spec c "_") as [->|H1]; [done|].
  by destruct (Ascii.eqb_spec c "-").
Qed.

Lemma rstrip_spec (s : string) :
  ∃ r, s = Py.rstrip s +:+ r ∧ all_space r = true
       ∧ ends_with_space (Py.rstrip s) = false.
Proof.
  induction s as [|c s (r & Hs & Hr & He)].
  - by exists "".
  - simpl. destruct (Py.rstrip s) as [|d t] eqn:Ht.
    + destruct (Py.isspace c) eqn:Hc.
      * exists (String c s). rewrite str_app_nil_l in Hs. subst r.
        simpl. by rewrite Hc.
      * exists s. rewrite str_app_nil_l in Hs. subst r.
        repeat split; [done|]. simpl. done.
    + exists r. rewrite str_app_cons, <- Hs. by repeat split.
Qed.

Lemma lstrip_spec (s : string) :
  ∃ l, s = l +:+ Py.lstrip s ∧ all_space l = true
       ∧ starts_with_space (Py.lstrip s) = false
       ∧ (ends_with_space s = false → ends_with_space (Py.lstrip s) = false).
Proof.
  induction s as [|c s (l & Hs & Hl & Hb & He)].
  - by exists "".
  - change (Py.lstrip (String c s))
      with (if Py.isspace c then Py.lstrip s else String c s).
    destruct (Py.isspace c) eqn:Hc.
    + exists (String c l). rewrite str_app_cons, <- Hs.
      split; [done|]. split; [simpl; by rewrite Hc|]. split; [done|].
      destruct s; [done|]. exact He.
    + exists "". split; [done|]. split; [done|]. split; [exact Hc|]. done.
Qed.

Lemma strip_trimmed (s : string) : trimmed_of s (Py.strip s).
Proof.
  destruct (rstrip_spec s) as (r & Hs & Hr & He).
  destruct (lstrip_spec (Py.rstrip s)) as (l & Hl & Hls & Hb & He').
  exists l, r. unfold Py.strip. rewrite <- str_app_assoc, <- Hl, <- Hs.
  by repeat split; [..|apply He'].
Qed.

Lemma split_last_Some (c : ascii) (s l r : string) :
  split_last c s = Some (l, r) →
  s = l +:+ String c r ∧ contains c r = false.
Proof.
  revert l r. induction s as [|a s IH]; intros l r; simpl; [done|].
  destruct (split_last c s) as [[l' r']|] eqn:Hs.
  - intros [= <- <-]. destruct (IH l' r' eq_refl) as [-> Hr].
    by rewrite str_app_cons.
  - destruct (Ascii.eqb_spec a c) as [->|]; [|done].
    intros [= <- <-]. split; [done|].
    clear IH. induction s as [|b s IH]; [done|]. simpl in *.
    destruct (split_last c s) as [[? ?]|]; [done|].
    destruct (Ascii.eqb b c); [done|]. by apply IH.
Qed.

Lemma split_last_None (c : ascii) (s : string) :
  split_last c s = None → contains c s = false.
Proof.
  induction s as [|a s IH]; simpl; [done|].
  destruct (split_last c s) as [[? ?]|]; [done|].
  destruct (Ascii.eqb a c); [done|]. by intros _; apply IH.
Qed.

Lemma contains_app (c : ascii) (a b : string) :
  contains c (a +:+ b) = contains c a || contains c b.
Proof.
  induction a as [|x a IH]; [done|]. rewrite str_app_cons. simpl.
  by rewrite IH, orb_assoc.
Qed.

Lemma rfind_notin (c : ascii) (s : string) (i found : Z) :
  contains c s = false → Py.rfind_from c s i found = found.
Proof.
  revert i found. induction s as [|a s IH]; intros i found; simpl; [done|].
  destruct (Ascii.eqb a c); [done|]. simpl. apply IH.
Qed.

Lemma rfind_app_notin (c : ascii) (a b : string) (i found : Z) :
  contains c b = false →
  Py.rfind_from c (a +:+ b) i found = Py.rfind_from c a i found.
Proof.
  intros Hb. revert i found.
  induction a as [|x a IH]; intros i found.
  - by apply rfind_notin.
  - rewrite str_app_cons. simpl. apply IH.
Qed.

Lemma rfind_app_last (c : ascii) (l r : string) (i found : Z) :
  contains c r = false →
  Py.rfind_from c (l +:+ String c r) i found = i + Z.of_nat (String.length l).
Proof.
  intros Hr. revert i found.
  induction l as [|x l IH]; intros i found.
  - rewrite str_app_nil_l. simpl. rewrite Ascii.eqb_refl.
    rewrite rfind_notin by done. lia.
  - rewrite str_app_cons. simpl. rewrite IH. lia.
Qed.

Lemma rfind_bound (c : ascii) (s : string) (i found : Z) :
  found < i → Py.rfind_from c s i found < i + Z.of_nat (String.length s).
Proof.
  revert i found. induction s as [|a s IH]; intros i found Hf; simpl.
  - lia.
  - pose proof (IH (i + 1) (if Ascii.eqb a c then i else found)) as H.
    destruct (Ascii.eqb a c); lia.
Qed.

(** The scan of [splitext] over the part [a2] of the name that precedes
    its last dot, [q] being what lies before. *)
Lemma splitext_scan_spec (ext a2 q : string) (fuel : nat) :
  (String.length a2 < fuel)%nat →
  OsPath.splitext_scan fuel (q +:+ a2 +:+ String "." ext)
    (Z.of_nat (String.length q)) (Z.of_nat (String.length (q +:+ a2)))
  = if all_dots a2 then (q +:+ a2 +:+ String "." ext, "")
    else (q +:+ a2, String "." ext).
Proof.
  revert q fuel. induction a2 as [|c a2 IH]; intros q fuel Hfuel.
  - destruct fuel as [|fuel]; [simpl in Hfuel; lia|].
    cbn [OsPath.splitext_scan].
    rewrite str_app_nil_r, Z.ltb_irrefl. unfold Py.slice.
    by rewrite substring_0_0.
  - destruct fuel as [|fuel]; [simpl in Hfuel; lia|].
    cbn [OsPath.splitext_scan].
    assert (Hd : String.length (q +:+ String c a2)
                 = (String.length q + S (String.length a2))%nat)
      by (by rewrite str_length_app).
    destruct (Z.ltb_spec (Z.of_nat (String.length q))
                (Z.of_nat (String.length (q +:+ String c a2)))); [|lia].
    assert (Hchar : Py.slice (q +:+ String c a2 +:+ String "." ext)
                      (Z.of_nat (String.length q))
                      (Z.of_nat (String.length q) + 1) = String c "").
    { unfold Py.slice.
      replace (Z.to_nat (Z.of_nat (String.length q) + 1
                         - Z.of_nat (String.length q))) with 1%nat by lia.
      rewrite Nat2Z.id, substring_skip, str_app_cons.
      cbn [substring]. by rewrite substring_0_0. }
    rewrite Hchar. cbn [String.eqb all_dots].
    destruct (Ascii.eqb_spec c ".") as [->|Hc]; cbn [negb andb].
    + pose proof (IH (q +:+ ".") fuel) as IH'.
      rewrite !str_app_assoc, !str_app_cons, !str_app_nil_l in IH'.
      rewrite (str_length_app q (String "." "")) in IH'.
      cbn [String.length] in IH'.
      replace (Z.of_nat (String.length q + 1))
        with (Z.of_nat (String.length q) + 1) in IH' by lia.
      rewrite !str_app_cons.
      rewrite <- IH' by (simpl in Hfuel; lia). done.
    + f_equal.
      * unfold Py.slice. rewrite Z.sub_0_r, Nat2Z.id.
        change (Z.to_nat 0) with 0%nat.
        rewrite <- str_app_assoc. apply substring_prefix.
      * unfold Py.slice_from. rewrite Nat2Z.id, <- str_app_assoc.
        rewrite substring_skip, str_length_app.
        replace (String.length (q +:+ String c a2)
                 + String.length (String "." ext)
                 - String.length (q +:+ String c a2))%nat
          with (String.length (String "." ext)) by lia.
        apply substring_all.
Qed.

(** [os.path.splitext] drops the extension as [stem] describes it. *)
Lemma splitext_stem (p : string) : fst (OsPath.splitext p) = stem p.
Proof.
  unfold OsPath.splitext, stem, stem_name, Py.rfind.
  destruct (split_last "/" p) as [[dir name]|] eqn:Hsep.
  - apply split_last_Some in Hsep as [-> Hname].
    rewrite (rfind_app_last "/" dir name) by done. rewrite Z.add_0_l.
    destruct (split_last "." name) as [[l r]|] eqn:Hdot.
    + apply split_last_Some in Hdot as [-> Hr].
      replace (dir +:+ String "/" (l +:+ String "." r))
        with ((dir +:+ "/" +:+ l) +:+ String "." r)
        by (by rewrite !str_app_assoc).
      rewrite (rfind_app_last "." _ r) by done. rewrite Z.add_0_l.
      rewrite !str_length_app. cbn [String.length].
      destruct (Z.ltb_spec (Z.of_nat (String.length dir))
                  (Z.of_nat (String.length dir + (1 + String.length l))));
        [|lia].
      pose proof (splitext_scan_spec r l (dir +:+ "/")
                    (S (String.length l))) as Hscan.
      rewrite !str_length_app in Hscan. cbn [String.length] in Hscan.
      rewrite !str_app_assoc in Hscan |- *.
      replace (Z.of_nat (String.length dir) + 1)
        with (Z.of_nat (String.length dir + 1)) by lia.
      replace (Z.to_nat (Z.of_nat (String.length dir + (1 + String.length l))
                         - Z.of_nat (String.length dir + 1)))
        with (String.length l) by lia.
      replace (String.length dir + (1 + String.length l))%nat
        with (String.length dir + 1 + String.length l)%nat by lia.
      rewrite Hscan by lia.
      by destruct (all_dots l).
    + apply split_last_None in Hdot.
      rewrite (rfind_app_notin "." dir (String "/" name))
        by (simpl; by rewrite Hdot).
      pose proof (rfind_bound "." dir 0 (-1)) as Hb.
      destruct (Z.ltb_spec (Z.of_nat (String.length dir))
                  (Py.rfind_from "." dir 0 (-1))); [lia|done].
  - apply split_last_None in Hsep.
    rewrite (rfind_notin "/" p) by done.
    destruct (split_last "." p) as [[l r]|] eqn:Hdot.
    + apply split_last_Some in Hdot as [-> Hr].
      rewrite (rfind_app_last "." l r) by done. rewrite Z.add_0_l.
      destruct (Z.ltb_spec (-1) (Z.of_nat (String.length l))); [|lia].
      pose proof (splitext_scan_spec r l "" (S (String.length l))) as Hscan.
      rewrite !str_app_nil_l in Hscan. cbn [String.length] in Hscan.
      replace (-1 + 1) with (Z.of_nat 0) by lia.
      replace (Z.to_nat (Z.of_nat (String.length l) - Z.of_nat 0))
        with (String.length l) by lia.
      rewrite Hscan by lia.
      by destruct (all_dots l).
    + apply split_last_None in Hdot. by rewrite (rfind_notin "." p).
Qed.

(** C5: the title is the filename without its extension, with every
    underscore and hyphen replaced by a space and the white space at both
    ends trimmed, and nothing else is normalised: no case change, no
    stripping of a leading number.  "My_Song-01.mp3" gives "My Song 01"
    and "track.mp3" gives "track". *)
Theorem C5_sanitize_title :
  (∀ fn, trimmed_of (map_chars sep_to_space (stem fn)) (sanitize_title fn))
  ∧ sanitize_title "My_Song-01.mp3" = "My Song 01"
  ∧ sanitize_title "track.mp3" = "track"
  ∧ sanitize_title "01_Intro-THEME.Mp3" = "01 Intro THEME"
  ∧ stem "My_Song-01.mp3" = "My_Song-01"
  ∧ stem "track.mp3" = "track".
Proof.
  split; [|by repeat split].
  intros fn. unfold sanitize_title.
  rewrite replace_sep_to_space, splitext_stem. apply strip_trimmed.
Qed.

(** C10: distinct filenames can derive the same title, since underscores
    and hyphens both become spaces ("My_Song.mp3" and "My-Song.mp3"); the
    items of distinct filenames still differ by URL and by GUID. *)
Theorem C10_title_not_injective :
  "My_Song.mp3" ≠ "My-Song.mp3"
  ∧ sanitize_title "My_Song.mp3" = sanitize_title "My-Song.mp3"
  ∧ (∀ site_url len1 len2,
       let it1 := new_item site_url "My_Song.mp3" len1 in
       let it2 := new_item site_url "My-Song.mp3" len2 in
       it_title it1 = it_title it2
       ∧ it_url it1 ≠ it_url it2 ∧ guid_of it1 ≠ guid_of it2)
  ∧ (∀ site_url fn1 fn2 len1 len2,
       fn1 ≠ fn2 →
       it_url (new_item site_url fn1 len1) ≠ it_url (new_item site_url fn2 len2)
       ∧ guid_of (new_item site_url fn1 len1)
         ≠ guid_of (new_item site_url fn2 len2)).
Proof.
  assert (Hgen : ∀ site_url fn1 fn2 len1 len2,
       fn1 ≠ fn2 →
       it_url (new_item site_url fn1 len1) ≠ it_url (new_item site_url fn2 len2)
       ∧ guid_of (new_item site_url fn1 len1)
         ≠ guid_of (new_item site_url fn2 len2)).
  { intros site_url fn1 fn2 len1 len2 Hne. unfold guid_of. simpl. split.
    - intros Heq. apply Hne. by do 2 apply String.app_inj in Heq.
    - intros Heq. apply Hne.
      rewrite !str_app_assoc in Heq.
      do 2 apply String.app_inj in Heq.
      assert (Hlen : String.length fn1 = String.length fn2).
      { apply (f_equal String.length) in Heq.
        rewrite !str_length_app in Heq. simpl in Heq. lia. }
      by destruct (str_app_inj_length _ _ _ _ Hlen Heq). }
  split; [done|]. split; [reflexivity|]. split; [|exact Hgen].
  intros site_url len1 len2 it1 it2. split; [reflexivity|].
  by apply Hgen.
Qed.

Lemma C10_title_not_injective_witness :
  "a_b.mp3" ≠ "a-b.mp3"
  ∧ it_url (new_item "https://h/r" "a_b.mp3" 7)
    ≠ it_url (new_item "https://h/r" "a-b.mp3" 7).
Proof.
  assert (Hne : "a_b.mp3" ≠ "a-b.mp3") by done.
  split; [exact Hne|].
  destruct C10_title_not_injective as (_ & _ & _ & Hgen).
  exact (proj1 (Hgen "https://h/r" "a_b.mp3" "a-b.mp3" 7%N 7%N Hne)).
Defined.

(** ** Feed rendering *)

Lemma bindM_ok {A B : Type} (m : M A) (k : A → M B) (w w' : world) (a : A) :
  m w = (w', Ok a) → (m ≫= k) w = k a w'.
Proof. intros Hm. unfold mbind, M_bind. by rewrite Hm. Qed.

Lemma bindM_raise {A B : Type} (m : M A) (k : A → M B) (w w' : world) (x : exn) :
  m w = (w', Raise x) → (m ≫= k) w = (w', Raise x).
Proof. intros Hm. unfold mbind, M_bind. by rewrite Hm. Qed.

Lemma build_feed_item_ok (e : env) (f : string) (it : item) (w : world) :
  build_feed_item e f it w
  = (mk_world (fs w) (stdout w) (S (ticks w)),
     Ok (f +:+ item_block (clock e (ticks w)) it)).
Proof.
  unfold build_feed_item.
  rewrite (bindM_ok _ _ w (mk_world (fs w) (stdout w) (S (ticks w)))
             (clock e (ticks w))) by done.
  unfold mret, M_ret. do 2 f_equal.
  unfold write, item_block, guid_line, enclosure_line, guid_of.
  by rewrite !str_app_assoc.
Qed.

Lemma build_feed_items (e : env) (items : list item) (f : string) (w : world) :
  for_eachM items f (build_feed_item e) w
  = (mk_world (fs w) (stdout w) (length items + ticks w),
     Ok (f +:+ item_blocks (clock e) (ticks w) items)).
Proof.
  revert f w. induction items as [|it items IH]; intros f w;
    cbn [for_eachM item_blocks].
  - rewrite str_app_nil_r. by destruct w.
  - rewrite (bindM_ok _ _ _ _ _ (build_feed_item_ok e f it w)).
    rewrite IH. cbn. f_equal; [f_equal; lia|].
    by rewrite str_app_assoc.
Qed.

Lemma write_file_ok (d name content : string) (w : world)
    (entries : gmap string string) :
  fs w !! d = Some (Dir entries) →
  Os.write_file d name content w
  = (set_fs (insert d (Dir (<[name := content]> entries))) w, Ok ()).
Proof. intros Hd. unfold Os.write_file. by rewrite Hd. Qed.

Lemma build_feed_ok (e : env) (items : list item) (ct cl cd out_dir name : string)
    (w : world) (entries : gmap string string) :
  fs w !! out_dir = Some (Dir entries) →
  build_feed e items ct cl cd out_dir name w
  = (mk_world
       (<[out_dir := Dir (<[name := feed_text e (ticks w) items ct cl cd]> entries)]>
          (fs w))
       (stdout w) (S (length items + ticks w)),
     Ok ()).
Proof.
  intros Hd. unfold build_feed.
  rewrite (bindM_ok _ _ w (mk_world (fs w) (stdout w) (S (ticks w)))
             (clock e (ticks w))) by done.
  erewrite bindM_ok; [|by apply (write_file_ok _ _ _ _ entries)].
  erewrite bindM_ok; [|by apply build_feed_items].
  erewrite write_file_ok; [|cbn; by rewrite lookup_insert_eq].
  unfold set_fs. cbn. f_equal. f_equal; [|lia].
  rewrite insert_insert_eq. do 2 f_equal. rewrite insert_insert_eq. f_equal.
  unfold feed_text, feed_header, feed_footer, link_line, write.
  by rewrite !str_app_assoc, !str_app_nil_l.
Qed.

Lemma item_blocks_app (clock : nat → string) (k : nat) (a b : list item) :
  item_blocks clock k (a ++ b)
  = item_blocks clock k a +:+ item_blocks clock (k + length a) b.
Proof.
  revert k. induction a as [|it a IH]; intros k; simpl.
  - by rewrite Nat.add_0_r.
  - rewrite IH, str_app_assoc. do 3 f_equal. lia.
Qed.

(** C6: the rendered document is the channel header, then one [<item>]
    block per item in the order of the input, then the footer; the block
    of an item carries the GUID [url#filename] with isPermaLink="false" and
    the enclosure with the item's URL, its length and the type audio/mpeg.
    For the single item a.mp3 of 1234 bytes at https://host/a.mp3 the
    document has one [<item>], the GUID https://host/a.mp3#a.mp3 and the
    enclosure of the claim. *)
Theorem C6_feed_rendering (e : env) (items : list item)
    (channel_title channel_link channel_description out_dir : string)
    (w : world) (entries : gmap string string) :
  fs w !! out_dir = Some (Dir entries) →
  (∃ w',
     build_feed e items channel_title channel_link channel_description
       out_dir "feed.xml" w = (w', Ok ())
     ∧ Os.read_file out_dir "feed.xml" w'
       = Some (feed_header channel_title channel_link channel_description
                 (clock e (ticks w))
               +:+ item_blocks (clock e) (S (ticks w)) items
               +:+ feed_footer))
  ∧ (∀ k a it b,
       item_blocks (clock e) k (a ++ it :: b)
       = item_blocks (clock e) k a
         +:+ item_block (clock e (k + length a)) it
         +:+ item_blocks (clock e) (S (k + length a)) b)
  ∧ (∀ pubdate it,
       item_block pubdate it
       = "    <item>" +:+ nl
         +:+ "      <title>" +:+ it_title it +:+ "</title>" +:+ nl
         +:+ "      <pubDate>" +:+ pubdate +:+ "</pubDate>" +:+ nl
         +:+ "      <guid isPermaLink=" +:+ dq +:+ "false" +:+ dq +:+ ">"
         +:+ it_url it +:+ "#" +:+ it_filename it +:+ "</guid>" +:+ nl
         +:+ "      <enclosure url=" +:+ dq +:+ it_url it +:+ dq
         +:+ " length=" +:+ dq +:+ it_length it +:+ dq
         +:+ " type=" +:+ dq +:+ "audio/mpeg" +:+ dq +:+ " />" +:+ nl
         +:+ "    </item>" +:+ nl)
  ∧ (let it := new_item "https://host" "a.mp3" 1234 in
     let text := feed_text (mk_env (Date.mk_date 2024 3 9) (λ _, "NOW") (λ i, i))
                   0 [it] "T" "L" "D" in
     it = mk_item "a.mp3" "a" "1234" "https://host/a.mp3"
     ∧ occurrences "<item>" text = 1%nat
     ∧ occurrences
         ("<guid isPermaLink=" +:+ dq +:+ "false" +:+ dq
          +:+ ">https://host/a.mp3#a.mp3</guid>") text = 1%nat
     ∧ occurrences
         ("<enclosure url=" +:+ dq +:+ "https://host/a.mp3" +:+ dq
          +:+ " length=" +:+ dq +:+ "1234" +:+ dq
          +:+ " type=" +:+ dq +:+ "audio/mpeg" +:+ dq +:+ " />") text = 1%nat).
Proof.
  intros Hd. split; [|split; [|split]].
  - eexists. split; [by apply (build_feed_ok _ _ _ _ _ _ _ _ entries)|].
    unfold Os.read_file. cbn. rewrite lookup_insert_eq.
    by rewrite lookup_insert_eq.
  - intros k a it b. rewrite item_blocks_app. cbn [item_blocks].
    by rewrite ?str_app_assoc.
  - intros pubdate it. unfold item_block, guid_line, enclosure_line.
    by rewrite ?str_app_assoc.
  - by vm_compute.
Qed.

Lemma C6_feed_rendering_witness :
  let e := mk_env (Date.mk_date 2024 3 9) (λ k, "T" +:+ pretty.pretty k) (λ i, i) in
  let w := mk_world {[ "public" := Dir ∅ ]} "" 0 in
  let items := [new_item "https://host" "a.mp3" 1234;
                new_item "https://host" "b.mp3" 5] in
  fs w !! "public" = Some (Dir ∅)
  ∧ ∃ w',
      build_feed e items "T" "https://host/" "D" "public" "feed.xml" w = (w', Ok ())
      ∧ Os.read_file "public" "feed.xml" w'
        = Some (feed_header "T" "https://host/" "D" (clock e 0)
                +:+ item_blocks (clock e) 1 items +:+ feed_footer).
Proof.
  intros e w items.
  assert (Hd : fs w !! "public" = Some (Dir ∅)) by done.
  split; [exact Hd|].
  exact (proj1 (C6_feed_rendering e items "T" "https://host/" "D" "public" w ∅ Hd)).
Defined.

(** ** Effects *)

Lemma bindM_inv {A B : Type} (m : M A) (k : A → M B) (w w' : world) (b : B) :
  (m ≫= k) w = (w', Ok b) →
  ∃ w1 a, m w = (w1, Ok a) ∧ k a w1 = (w', Ok b).
Proof.
  unfold mbind, M_bind. destruct (m w) as [w1 [a|x]]; [|done].
  intros Hk. by exists w1, a.
Qed.

Lemma rstrip_char_spec (c : ascii) (s : string) :
  (∃ k, s = Py.rstrip_char c s +:+ repeat_char c k)
  ∧ last_char (Py.rstrip_char c s) ≠ Some c.
Proof.
  induction s as [|a s [[k Hs] Hlast]].
  - split; [by exists 0%nat|done].
  - cbn [Py.rstrip_char]. destruct (Py.rstrip_char c s) as [|d t] eqn:Hr.
    + rewrite str_app_nil_l in Hs.
      destruct (Ascii.eqb_spec a c) as [->|Hne].
      * split; [|done]. exists (S k). by rewrite Hs.
      * split; [exists k; by rewrite Hs|]. simpl. congruence.
    + split; [exists k; by rewrite str_app_cons, <- Hs|done].
Qed.

(** ** The order of the effects of [main] *)

(** Lines 72-74: whatever follows runs in a state whose output directory
    exists and is empty. *)
Lemma clean_output_dir {B : Type} (out_dir : string) (k : () → M B) (w : world) :
  (∀ c, fs w !! out_dir ≠ Some (File c)) →
  (Os.path_exists out_dir
     ≫= λ ex : bool,
          (if ex then Os.rmtree out_dir else mret ())
            ≫= λ _, Os.makedirs out_dir ≫= k) w
  = k () (set_fs (insert out_dir (Dir ∅)) w).
Proof.
  intros Hout. destruct w as [fs0 out0 t0]. simpl in Hout.
  unfold mbind, M_bind, Os.path_exists, Os.rmtree, Os.makedirs, set_fs. cbn.
  destruct (fs0 !! out_dir) as [[c|d]|] eqn:Hd; cbn.
  - by destruct (Hout c).
  - rewrite Hd. cbn. rewrite lookup_delete_eq. by rewrite insert_delete_eq.
  - by rewrite Hd.
Qed.

(** C2 (as the code has it): the source and the output are plain names
    of a working directory that holds regular files and directories of
    regular files; the source is a directory without any .mp3 entry and
    the output path is absent or a directory.  Then the run fails with
    [SystemExit], in a state in which the output directory has already
    been removed and created anew, empty: the listing is validated after
    the output directory is cleaned.  Nothing else has changed: nothing
    is copied, no feed is written, nothing is printed. *)
Theorem C2_empty_listing (e : env) (args : args_t) (w : world)
    (entries : gmap string string) :
  plain_name (arg_mp3_dir args) →
  plain_name (arg_out args) →
  tidy w →
  fs w !! arg_mp3_dir args = Some (Dir entries) →
  all_files_of (map_to_list entries).*1 = [] →
  (∀ c, fs w !! arg_out args ≠ Some (File c)) →
  main e args w
  = (set_fs (insert (arg_out args) (Dir ∅)) w,
     Raise (SystemExit "No mp3 files found in mp3_dir"))
  ∧ fs (fst (main e args w)) !! arg_out args = Some (Dir ∅)
  ∧ (∀ p, p ≠ arg_out args → fs (fst (main e args w)) !! p = fs w !! p)
  ∧ stdout (fst (main e args w)) = stdout w.
Proof.
  intros _ _ _ Hmp3 Hnone Hout.
  assert (Hrun : main e args w
                 = (set_fs (insert (arg_out args) (Dir ∅)) w,
                    Raise (SystemExit "No mp3 files found in mp3_dir"))).
  { unfold main.
    rewrite (bindM_ok _ _ w w true) by (unfold Os.path_isdir; by rewrite Hmp3).
    cbn [negb]. rewrite clean_output_dir by done.
    set (w1 := set_fs (insert (arg_out args) (Dir ∅)) w).
    assert (Hlist : ∃ names, Os.listdir (arg_mp3_dir args) w1 = (w1, Ok names)
                             ∧ all_files_of names = []).
    { unfold Os.listdir, w1. cbn.
      destruct (decide (arg_out args = arg_mp3_dir args)) as [->|Hne].
      - rewrite lookup_insert_eq. eexists. split; [done|].
        by rewrite map_to_list_empty.
      - rewrite lookup_insert_ne, Hmp3 by done. by eexists. }
    destruct Hlist as (names & Hlist & Hempty).
    rewrite (bindM_ok _ _ _ _ _ Hlist). by rewrite Hempty. }
  rewrite Hrun. split; [done|]. cbn. split; [by rewrite lookup_insert_eq|].
  split; [|done]. intros p Hp. by rewrite lookup_insert_ne.
Qed.

Lemma C2_empty_listing_witness :
  let e := mk_env (Date.mk_date 2024 3 9) (λ _, "NOW") (λ i, i) in
  let args := mk_args "mp3" "public" 10 "https://h/r" rotate "T" "D" in
  let entries : gmap string string := {[ "notes.txt" := "x" ]} in
  let w := mk_world {[ "mp3" := Dir entries;
                       "public" := Dir {[ "old.mp3" := "o" ]} ]} "" 0 in
  plain_name "mp3" ∧ plain_name "public" ∧ tidy w
  ∧ fs w !! "mp3" = Some (Dir entries)
  ∧ all_files_of (map_to_list entries).*1 = []
  ∧ fs (fst (main e args w)) !! "public" = Some (Dir ∅).
Proof.
  intros e args entries w.
  assert (P1 : plain_name (arg_mp3_dir args)) by by vm_compute.
  assert (P2 : plain_name (arg_out args)) by by vm_compute.
  assert (P3 : tidy w) by by vm_compute.
  assert (H1 : fs w !! arg_mp3_dir args = Some (Dir entries)) by done.
  assert (H2 : all_files_of (map_to_list entries).*1 = []) by by vm_compute.
  assert (H3 : ∀ c, fs w !! arg_out args ≠ Some (File c)) by done.
  split; [exact P1|]. split; [exact P2|]. split; [exact P3|].
  split; [exact H1|]. split; [exact H2|].
  exact (proj1 (proj2 (C2_empty_listing e args w entries P1 P2 P3 H1 H2 H3))).
Defined.

(** C2, as stated, fails: the doomed run has emptied the output
    directory. *)
Lemma C2_counterexample :
  let e := mk_env (Date.mk_date 2024 3 9) (λ _, "NOW") (λ i, i) in
  let args := mk_args "mp3" "public" 10 "https://h/r" rotate "T" "D" in
  let w := mk_world {[ "mp3" := Dir {[ "notes.txt" := "x" ]};
                       "public" := Dir {[ "old.mp3" := "o" ]} ]} "" 0 in
  snd (main e args w) = Raise (SystemExit "No mp3 files found in mp3_dir")
  ∧ Os.read_file "public" "old.mp3" w = Some "o"
  ∧ Os.read_file "public" "old.mp3" (fst (main e args w)) = None
  ∧ fs (fst (main e args w)) ≠ fs w.
Proof.
  intros e args w.
  split; [by vm_compute|]. split; [by vm_compute|]. split; [by vm_compute|].
  intros Heq. apply (f_equal (λ m, m !! "public")) in Heq.
  vm_compute in Heq. discriminate.
Qed.

(** ** The URLs of a successful run *)

Lemma write_file_inv (d name content : string) (w w' : world) :
  Os.write_file d name content w = (w', Ok ()) →
  is_dir d w' ∧ ticks w' = ticks w ∧ stdout w' = stdout w.
Proof.
  unfold Os.write_file, is_dir.
  destruct (fs w !! d) as [[c|entries]|]; [done| |done].
  intros [= <-]. cbn. rewrite lookup_insert_eq. eauto.
Qed.

Lemma main_item_inv (mp3_dir out_dir site_url fn : string) (items items' : list item)
    (w w' : world) :
  main_item mp3_dir out_dir site_url items fn w = (w', Ok items') →
  is_dir out_dir w' ∧ ticks w' = ticks w
  ∧ ∃ len, items' = (items ++ [new_item site_url fn len])%list.
Proof.
  unfold main_item. intros Hrun.
  apply bindM_inv in Hrun as (w1 & [] & Hcopy & Hrun).
  apply bindM_inv in Hrun as (w2 & len & Hsize & Hret).
  unfold mret, M_ret in Hret. injection Hret as <- <-.
  unfold Os.copy2 in Hcopy.
  destruct (Os.read_file mp3_dir fn w); [|done].
  destruct (String.eqb mp3_dir out_dir); [done|].
  apply write_file_inv in Hcopy as (Hdir & Ht & _).
  unfold Os.path_getsize in Hsize.
  destruct (Os.read_file out_dir fn w1); [|done].
  injection Hsize as <- <-. eauto.
Qed.

Lemma main_items_inv (mp3_dir out_dir site_url : string) (chosen : list string)
    (items items' : list item) (w w' : world) :
  for_eachM chosen items (main_item mp3_dir out_dir site_url) w = (w', Ok items') →
  is_dir out_dir w →
  is_dir out_dir w' ∧ ticks w' = ticks w
  ∧ ∃ new, items' = (items ++ new)%list
           ∧ Forall2 (λ fn it, ∃ len, it = new_item site_url fn len) chosen new.
Proof.
  revert items w. induction chosen as [|fn chosen IH]; intros items w Hrun Hdir;
    cbn [for_eachM] in Hrun.
  - unfold mret, M_ret in Hrun. injection Hrun as <- <-.
    repeat split; [done|]. exists []. by rewrite app_nil_r.
  - apply bindM_inv in Hrun as (w1 & items1 & Hitem & Hrun).
    apply main_item_inv in Hitem as (Hdir1 & Ht1 & len & ->).
    apply IH in Hrun as (Hdir' & Ht' & new & -> & Hall); [|done].
    split; [done|]. split; [congruence|].
    exists (new_item site_url fn len :: new). split.
    + by rewrite <- app_assoc.
    + constructor; eauto.
Qed.

Lemma feed_text_link (e : env) (t : nat) (items : list item) (ct cl cd : string) :
  ∃ pre post,
    feed_text e t items ct cl cd
    = pre +:+ "    <link>" +:+ cl +:+ "</link>" +:+ nl +:+ post.
Proof.
  exists ("<?xml version=" +:+ dq +:+ "1.0" +:+ dq +:+ " encoding=" +:+ dq
          +:+ "UTF-8" +:+ dq +:+ "?>" +:+ nl
          +:+ "<rss version=" +:+ dq +:+ "2.0" +:+ dq +:+ ">" +:+ nl
          +:+ "  <channel>" +:+ nl
          +:+ "    <title>" +:+ ct +:+ "</title>" +:+ nl),
         ("    <description>" +:+ cd +:+ "</description>" +:+ nl
          +:+ "    <lastBuildDate>" +:+ clock e t +:+ "</lastBuildDate>" +:+ nl
          +:+ item_blocks (clock e) (S t) items +:+ feed_footer).
  unfold feed_text, feed_header, link_line. by rewrite !str_app_assoc.
Qed.

(** C9: in the feed of a successful run the channel [<link>] holds the site
    URL as it was supplied, while every item URL is the site URL without
    its trailing slashes, then a slash and the filename; when the supplied
    URL ends in a slash the two prefixes differ. *)
Theorem C9_channel_link_vs_item_url (e : env) (args : args_t) (w w' : world) :
  main e args w = (w', Ok ()) →
  let site_url := arg_site_url args in
  let stripped := Py.rstrip_char "/" site_url in
  (∃ items pre post,
     Os.read_file (arg_out args) "feed.xml" w'
     = Some (feed_text e (ticks w) items (arg_channel_title args) site_url
               (arg_channel_desc args))
     ∧ feed_text e (ticks w) items (arg_channel_title args) site_url
         (arg_channel_desc args)
       = pre +:+ "    <link>" +:+ site_url +:+ "</link>" +:+ nl +:+ post
     ∧ Forall (λ it, it_url it = stripped +:+ "/" +:+ it_filename it) items)
  ∧ (∃ k, site_url = stripped +:+ repeat_char "/" k)
  ∧ last_char stripped ≠ Some "/"%char
  ∧ (last_char site_url = Some "/"%char → stripped ≠ site_url).
Proof.
  intros Hrun site_url stripped.
  destruct (rstrip_char_spec "/" site_url) as [Hk Hlast].
  split; [|split; [done|split; [done|]]].
  2: { intros Hs Heq. fold stripped in Hlast. rewrite Heq in Hlast. done. }
  unfold main in Hrun.
  apply bindM_inv in Hrun as (w0 & isdir & Hisdir & Hrun).
  unfold Os.path_isdir in Hisdir. injection Hisdir as <- <-.
  destruct (fs w !! arg_mp3_dir args) as [[c|entries]|] eqn:Hmp3; try done.
  cbn [negb] in Hrun.
  apply bindM_inv in Hrun as (w1 & ex & Hex & Hrun).
  apply bindM_inv in Hrun as (w2 & [] & Hrm & Hrun).
  apply bindM_inv in Hrun as (w3 & [] & Hmk & Hrun).
  apply bindM_inv in Hrun as (w4 & names & Hls & Hrun).
  case_bool_decide as Hfiles; [done|].
  apply bindM_inv in Hrun as (w5 & chosen & Hsel & Hrun).
  apply bindM_inv in Hrun as (w6 & items & Hitems & Hrun).
  apply bindM_inv in Hrun as (w7 & [] & Hfeed & Hprint).
  (* the clock is not read before the feed is built *)
  assert (Ht1 : ticks w1 = ticks w) by (by injection Hex as <- _).
  assert (Ht2 : ticks w2 = ticks w1).
  { destruct ex; [|by injection Hrm as <-].
    unfold Os.rmtree in Hrm.
    destruct (fs w1 !! arg_out args) as [[?|?]|]; try done.
    by injection Hrm as <-. }
  assert (Hmk' : is_dir (arg_out args) w3 ∧ ticks w3 = ticks w2).
  { unfold Os.makedirs, is_dir in *.
    destruct (fs w2 !! arg_out args) as [[?|d]|] eqn:Hd; try done.
    - injection Hmk as <-. eauto.
    - injection Hmk as <-. cbn. rewrite lookup_insert_eq. eauto. }
  destruct Hmk' as [Hdir3 Ht3].
  assert (w4 = w3) as ->.
  { unfold Os.listdir in Hls.
    destruct (fs w3 !! arg_mp3_dir args) as [[?|?]|]; try done.
    by injection Hls as <-. }
  assert (w5 = w3) as -> by (by injection Hsel as <- _).
  apply main_items_inv in Hitems as (Hdir6 & Ht6 & new & Hnew & Hall); [|done].
  rewrite app_nil_l in Hnew. subst new.
  destruct Hdir6 as [entries6 Hdir6].
  rewrite (build_feed_ok _ _ _ _ _ _ _ _ entries6 Hdir6) in Hfeed.
  injection Hfeed as <-.
  unfold Os.print in Hprint. injection Hprint as <-.
  destruct (feed_text_link e (ticks w) items (arg_channel_title args) site_url
              (arg_channel_desc args)) as (pre & post & Hlink).
  exists items, pre, post.
  split; [|split].
  - unfold Os.read_file. cbn [fs]. rewrite !lookup_insert_eq.
    do 2 f_equal. congruence.
  - exact Hlink.
  - clear -Hall. induction Hall as [|fn it chosen items [len ->] _ IH];
      constructor; done.
Qed.

Lemma C9_channel_link_vs_item_url_witness :
  let e := mk_env (Date.mk_date 2020 1 2) (λ _, "NOW") (λ i, i) in
  let args := mk_args "mp3" "public" 1 "https://h/r//" rotate "T" "D" in
  let w := mk_world {[ "mp3" := Dir {[ "a.mp3" := "hello"; "b.mp3" := "xx" ]} ]}
             "" 0 in
  snd (main e args w) = Ok ()
  ∧ last_char (arg_site_url args) = Some "/"%char
  ∧ Py.rstrip_char "/" (arg_site_url args) = "https://h/r"
  ∧ Py.rstrip_char "/" (arg_site_url args) ≠ arg_site_url args
  ∧ ∃ items,
      Os.read_file "public" "feed.xml" (fst (main e args w))
      = Some (feed_text e 0 items "T" "https://h/r//" "D")
      ∧ Forall (λ it, it_url it = "https://h/r" +:+ "/" +:+ it_filename it) items.
Proof.
  intros e args w.
  assert (Hrun : main e args w = (fst (main e args w), Ok ())) by by vm_compute.
  assert (Hlast : last_char (arg_site_url args) = Some "/"%char) by done.
  destruct (C9_channel_link_vs_item_url e args w _ Hrun)
    as ((items & pre & post & Hread & _ & Hurls) & _ & _ & Hne).
  split; [by vm_compute|]. split; [exact Hlast|]. split; [by vm_compute|].
  split; [exact (Hne Hlast)|].
  exists items. by split.
Defined.

(** * Further properties of the script *)

(** ** The rotation over the days *)

Lemma rotate_start_succ (d take N : Z) :
  ((d + 1) * take) mod N = ((d * take) mod N + take) mod N.
Proof.
  replace ((d + 1) * take) with (d * take + take) by lia.
  by rewrite Zplus_mod_idemp_l.
Qed.

Lemma rotate_start_shift (d i take N : Z) :
  ((d + i) * take) mod N = ((d * take) mod N + i * take) mod N.
Proof.
  replace ((d + i) * take) with (d * take + i * take) by lia.
  by rewrite Zplus_mod_idemp_l.
Qed.

(** X1: The rotation has period N: the day index [d + k * N] selects what the
    day index [d] selects (lines 87-91). *)
Theorem rotate_period (e1 e2 : env) (pool : list string) (num k : Z) :
  today_index e2 = today_index e1 + k * Py.len pool →
  select e2 pool num rotate = select e1 pool num rotate.
Proof.
  intros Hd. unfold select, rotate_chosen. rewrite Hd.
  destruct (decide (Py.len pool = 0)) as [H0|H0].
  - unfold Py.mod_. rewrite H0. done.
  - rewrite !mod_ok by done.
    replace ((today_index e1 + k * Py.len pool) * Py.min num (Py.len pool))
      with (today_index e1 * Py.min num (Py.len pool)
            + k * Py.min num (Py.len pool) * Py.len pool) by lia.
    by rewrite Z_mod_plus_full.
Qed.

Lemma rotate_period_witness :
  let e1 := mk_env (Date.mk_date 2024 3 9) (λ _, "") (λ i, i) in
  let e2 := mk_env (Date.mk_date 2024 3 15) (λ _, "") (λ i, i) in
  let pool := ["a.mp3"; "b.mp3"; "c.mp3"] in
  today_index e2 = today_index e1 + 2 * Py.len pool
  ∧ select e2 pool 2 rotate = select e1 pool 2 rotate.
Proof.
  intros e1 e2 pool.
  assert (Hd : today_index e2 = today_index e1 + 2 * Py.len pool) by done.
  split; [exact Hd|]. exact (rotate_period e1 e2 pool 2 2 Hd).
Defined.

(** X2: From one day to the next the window moves on by its own length: the
    window of day [d + 1] starts at the position that follows the last
    position of the window of day [d], circularly. *)
Theorem rotate_next_day (pool : list string) (take d : Z) :
  pool ≠ [] →
  let N := Py.len pool in
  let start := (d * take) mod N in
  ∃ today tomorrow,
    rotate_chosen pool take d = Ok today
    ∧ rotate_chosen pool take (d + 1) = Ok tomorrow
    ∧ Py.len today = Z.max 0 take ∧ Py.len tomorrow = Z.max 0 take
    ∧ ∀ i, 0 <= i < take →
        ∃ x y, pool_at today i = Some x ∧ pool_at tomorrow i = Some y
               ∧ pool_at pool ((start + i) mod N) = Some x
               ∧ pool_at pool ((start + take + i) mod N) = Some y.
Proof.
  intros Hne N start.
  destruct (rotate_chosen_ok pool Hne take d) as (today & Hr1 & Hw1).
  destruct (rotate_chosen_ok pool Hne take (d + 1)) as (tomorrow & Hr2 & Hw2).
  exists today, tomorrow. split; [done|]. split; [done|].
  split; [by apply (window_length _ _ _ _ Hw1)|].
  split; [by apply (window_length _ _ _ _ Hw2)|].
  intros i Hi.
  destruct (window_lookup _ _ _ _ Hw1 i Hi) as (x & Hx & Hpx).
  destruct (window_lookup _ _ _ _ Hw2 i Hi) as (y & Hy & Hpy).
  exists x, y. repeat split; [done..|].
  rewrite rotate_start_succ, Zplus_mod_idemp_l in Hpy. done.
Qed.

Lemma rotate_next_day_witness :
  let pool := ["a.mp3"; "b.mp3"; "c.mp3"; "d.mp3"; "e.mp3"] in
  pool ≠ []
  ∧ ∃ today tomorrow,
      rotate_chosen pool 2 7 = Ok today
      ∧ rotate_chosen pool 2 (7 + 1) = Ok tomorrow
      ∧ Py.len tomorrow = 2.
Proof.
  intros pool. assert (Hne : pool ≠ []) by done. split; [exact Hne|].
  destruct (rotate_next_day pool 2 7 Hne)
    as (today & tomorrow & H1 & H2 & _ & H4 & _).
  by exists today, tomorrow.
Defined.

(** X3: When two windows fit in the pool, the selections of two consecutive
    days have no file in common. *)
Theorem rotate_consecutive_days_disjoint (pool : list string) (take d : Z) :
  pool ≠ [] → NoDup pool → 2 * take <= Py.len pool →
  ∃ today tomorrow,
    rotate_chosen pool take d = Ok today
    ∧ rotate_chosen pool take (d + 1) = Ok tomorrow
    ∧ ∀ x, x ∈ today → x ∉ tomorrow.
Proof.
  intros Hne Hnd Hfit.
  destruct (rotate_chosen_ok pool Hne take d) as (today & Hr1 & Hw1).
  destruct (rotate_chosen_ok pool Hne take (d + 1)) as (tomorrow & Hr2 & Hw2).
  exists today, tomorrow. split; [done|]. split; [done|].
  intros x [a Ha]%list_elem_of_lookup [b Hb]%list_elem_of_lookup.
  apply (window_lookup_inv _ _ _ _ Hw1) in Ha as [Hra Hpa].
  apply (window_lookup_inv _ _ _ _ Hw2) in Hb as [Hrb Hpb].
  rewrite rotate_start_succ, Zplus_mod_idemp_l in Hpb.
  unfold pool_at in *.
  pose proof (NoDup_lookup _ _ _ _ Hnd Hpa Hpb) as Heq.
  pose proof (rotate_index_range pool Hne ((d * take) mod Py.len pool)
                (Z.of_nat a)).
  pose proof (rotate_index_range pool Hne ((d * take) mod Py.len pool + take)
                (Z.of_nat b)).
  assert (Hpos : Z.of_nat a = take + Z.of_nat b); [|lia].
  eapply (window_positions_inj pool Hne ((d * take) mod Py.len pool)
            (Py.len pool)); [lia|lia|lia|].
  rewrite Z.add_assoc. lia.
Qed.

Lemma rotate_consecutive_days_disjoint_witness :
  let pool := ["a.mp3"; "b.mp3"; "c.mp3"; "d.mp3"; "e.mp3"] in
  pool ≠ [] ∧ NoDup pool ∧ 2 * 2 <= Py.len pool
  ∧ ∃ today tomorrow,
      rotate_chosen pool 2 4 = Ok today
      ∧ rotate_chosen pool 2 (4 + 1) = Ok tomorrow
      ∧ ∀ x, x ∈ today → x ∉ tomorrow.
Proof.
  intros pool.
  assert (Hne : pool ≠ []) by done.
  assert (Hnd : NoDup pool) by (by apply (bool_decide_unpack _)).
  assert (Hfit : 2 * 2 <= Py.len pool) by (vm_compute; discriminate).
  split; [exact Hne|]. split; [exact Hnd|]. split; [exact Hfit|].
  exact (rotate_consecutive_days_disjoint pool 2 4 Hne Hnd Hfit).
Defined.

(** X4: Any [k] consecutive days whose windows add up to the pool size cover
    the pool: every file is selected on at least one of them. *)
Theorem rotate_covers_pool (pool : list string) (take d k : Z) (x : string) :
  pool ≠ [] → 0 < take → Py.len pool <= k * take → x ∈ pool →
  ∃ i chosen,
    0 <= i < k ∧ rotate_chosen pool take (d + i) = Ok chosen ∧ x ∈ chosen.
Proof.
  intros Hne Htake Hk [a Ha]%list_elem_of_lookup.
  pose proof (len_pos pool Hne) as HN.
  pose proof (lookup_lt_Some _ _ _ Ha) as Hlt.
  set (N := Py.len pool) in *.
  set (start := (d * take) mod N).
  set (m := (Z.of_nat a - start) mod N).
  assert (Hm : 0 <= m < N) by (by apply Z.mod_pos_bound).
  assert (Hi : 0 <= m / take < k).
  { split; [apply Z.div_pos; lia|].
    apply Z.div_lt_upper_bound; [lia|]. nia. }
  assert (Ht : 0 <= m mod take < take) by (apply Z.mod_pos_bound; lia).
  destruct (rotate_chosen_ok pool Hne take (d + m / take))
    as (chosen & Hrun & Hw).
  exists (m / take), chosen. split; [done|]. split; [done|].
  destruct (window_lookup _ _ _ _ Hw (m mod take) Ht) as (y & Hy & Hpy).
  fold N in Hpy. rewrite rotate_start_shift, Zplus_mod_idemp_l in Hpy.
  fold start in Hpy.
  replace (start + m / take * take + m mod take) with (start + m) in Hpy
    by (pose proof (Z.div_mod m take); lia).
  unfold m in Hpy. rewrite Zplus_mod_idemp_r in Hpy.
  replace (start + (Z.of_nat a - start)) with (Z.of_nat a) in Hpy by lia.
  rewrite Z.mod_small in Hpy by (unfold N, Py.len; lia).
  unfold pool_at in *. rewrite Nat2Z.id in Hpy.
  assert (y = x) as -> by congruence.
  by eapply list_elem_of_lookup_2.
Qed.

Lemma rotate_covers_pool_witness :
  let pool := ["a.mp3"; "b.mp3"; "c.mp3"; "d.mp3"; "e.mp3"] in
  pool ≠ [] ∧ 0 < 2 ∧ Py.len pool <= 3 * 2 ∧ "e.mp3" ∈ pool
  ∧ ∃ i chosen,
      0 <= i < 3 ∧ rotate_chosen pool 2 (10 + i) = Ok chosen ∧ "e.mp3" ∈ chosen.
Proof.
  intros pool.
  assert (Hne : pool ≠ []) by done.
  assert (Htake : 0 < 2) by lia.
  assert (Hk : Py.len pool <= 3 * 2) by (vm_compute; discriminate).
  assert (Hx : "e.mp3" ∈ pool) by (by apply (bool_decide_unpack _)).
  split; [exact Hne|]. split; [exact Htake|]. split; [exact Hk|].
  split; [exact Hx|].
  exact (rotate_covers_pool pool 2 10 3 "e.mp3" Hne Htake Hk Hx).
Defined.

(** ** Random selection *)

(** X5: In random mode, for a pool of at most 21 files (where
    [random.sample] runs its swap loop whatever the count), a
    non-negative count selects [min(count, N)] files, all from the pool
    and pairwise distinct, whatever the generator yields (lines 81-84). *)
Theorem random_selection_distinct (e : env) (pool : list string) (num : Z) :
  NoDup pool → Py.len pool <= swap_limit → 0 <= num →
  ∃ result,
    select e pool num random = Ok result
    ∧ Py.len result = Py.min num (Py.len pool)
    ∧ NoDup result
    ∧ ∀ x, x ∈ result → x ∈ pool.
Proof.
  intros Hnd _ Hnum. unfold select.
  pose proof (len_nonneg pool) as HN.
  destruct (sample_ok (draw e) pool (Py.min num (Py.len pool)))
    as (result & Hrun & Hlen & rest & Hperm).
  { rewrite min_spec. lia. }
  exists result. split; [done|]. split; [done|].
  rewrite <- Hperm in Hnd. apply NoDup_app in Hnd as (Hnd1 & _ & _).
  split; [done|]. intros x Hx. rewrite <- Hperm. apply elem_of_app. by left.
Qed.

Lemma random_selection_distinct_witness :
  let e := mk_env (Date.mk_date 2024 3 9) (λ _, "") (λ i, i * 7 + 3)%nat in
  let pool := ["a.mp3"; "b.mp3"; "c.mp3"; "d.mp3"] in
  NoDup pool ∧ Py.len pool <= swap_limit ∧ 0 <= 3
  ∧ ∃ result, select e pool 3 random = Ok result ∧ NoDup result.
Proof.
  intros e pool.
  assert (Hnd : NoDup pool) by (by apply (bool_decide_unpack _)).
  assert (Hsz : Py.len pool <= swap_limit) by (vm_compute; discriminate).
  assert (Hnum : 0 <= 3) by lia.
  split; [exact Hnd|]. split; [exact Hsz|]. split; [exact Hnum|].
  destruct (random_selection_distinct e pool 3 Hnd Hsz Hnum)
    as (result & Hrun & _ & Hnd' & _).
  by exists result.
Defined.

(** ** The candidate pool *)

Lemma filter_Permutation {A : Type} (f : A → bool) (l1 l2 : list A) :
  l1 ≡ₚ l2 → List.filter f l1 ≡ₚ List.filter f l2.
Proof.
  induction 1 as [|x l1 l2 _ IH|x y l|l1 l2 l3 _ IH1 _ IH2]; simpl.
  - done.
  - destruct (f x); [by constructor|done].
  - destruct (f x), (f y); try done. apply perm_swap.
  - by etrans.
Qed.

Lemma filter_StronglySorted {A : Type} (R : relation A) (f : A → bool)
    (l : list A) :
  StronglySorted R l → StronglySorted R (List.filter f l).
Proof.
  induction 1 as [|x l Hl IH Hx]; simpl; [constructor|].
  destruct (f x); [|done]. constructor; [done|].
  apply Forall_forall. intros y Hy%list_elem_of_In%filter_In.
  destruct Hy as [Hy _]. rewrite Forall_forall in Hx. apply Hx.
  by apply list_elem_of_In.
Qed.

Lemma elem_of_all_files_of (names : list string) (f : string) :
  f ∈ all_files_of names ↔ f ∈ names ∧ is_mp3 f = true.
Proof.
  unfold all_files_of, sorted.
  rewrite list_elem_of_In, filter_In, <- list_elem_of_In.
  by rewrite merge_sort_Permutation.
Qed.

(** X6: The pool of line 76 holds exactly the listed names that pass the
    [.mp3] test, in increasing order and as often as they are listed. *)
Theorem all_files_sorted_mp3 (names : list string) :
  StronglySorted String.le (all_files_of names)
  ∧ all_files_of names ≡ₚ List.filter is_mp3 names
  ∧ (∀ f, f ∈ all_files_of names ↔ f ∈ names ∧ is_mp3 f = true)
  ∧ (NoDup names → NoDup (all_files_of names)).
Proof.
  split; [|split; [|split]].
  - apply filter_StronglySorted, StronglySorted_merge_sort; apply _.
  - apply filter_Permutation, merge_sort_Permutation.
  - apply elem_of_all_files_of.
  - intros Hnd. unfold all_files_of, sorted.
    apply NoDup_ListNoDup, List.NoDup_filter, NoDup_ListNoDup.
    by rewrite merge_sort_Permutation.
Qed.

(** X7: The pool does not depend on the order in which the directory is
    listed. *)
Theorem all_files_order_independent (names1 names2 : list string) :
  names1 ≡ₚ names2 → all_files_of names1 = all_files_of names2.
Proof.
  intros Hperm. unfold all_files_of, sorted. f_equal.
  apply (Sorted_unique String.le).
  - apply Sorted_merge_sort; apply _.
  - apply Sorted_merge_sort; apply _.
  - by rewrite !merge_sort_Permutation.
Qed.

Lemma all_files_order_independent_witness :
  ["b.mp3"; "x.txt"; "a.MP3"] ≡ₚ ["a.MP3"; "b.mp3"; "x.txt"]
  ∧ all_files_of ["b.mp3"; "x.txt"; "a.MP3"]
    = all_files_of ["a.MP3"; "b.mp3"; "x.txt"].
Proof.
  assert (Hperm : ["b.mp3"; "x.txt"; "a.MP3"] ≡ₚ ["a.MP3"; "b.mp3"; "x.txt"]).
  { rewrite (Permutation_cons_append ["x.txt"; "a.MP3"] "b.mp3"). simpl.
    rewrite (Permutation_cons_append ["a.MP3"; "b.mp3"] "x.txt"). done. }
  split; [exact Hperm|]. exact (all_files_order_independent _ _ Hperm).
Defined.

(** ** The [.mp3] test *)

Lemma substring_split (s : string) (m : nat) :
  (m <= String.length s)%nat →
  s = substring 0 m s +:+ substring m (String.length s - m) s.
Proof.
  revert m. induction s as [|c s IH]; intros [|m] Hm; simpl in *; try lia.
  - done.
  - by rewrite substring_all.
  - rewrite str_app_cons. f_equal. apply IH. lia.
Qed.

Lemma endswith_iff (s suffix : string) :
  Py.endswith s suffix = true ↔ ∃ pre, s = pre +:+ suffix.
Proof.
  unfold Py.endswith. rewrite andb_true_iff, Nat.leb_le, String.eqb_eq. split.
  - intros [Hle Hsub]. exists (substring 0 (String.length s - String.length suffix) s).
    pose proof (substring_split s (String.length s - String.length suffix))
      as Hsplit.
    replace (String.length s - (String.length s - String.length suffix))%nat
      with (String.length suffix) in Hsplit by lia.
    rewrite Hsub in Hsplit. apply Hsplit. lia.
  - intros [pre ->]. rewrite str_length_app. split; [lia|].
    replace (String.length pre + String.length suffix - String.length suffix)%nat
      with (String.length pre) by lia.
    by rewrite substring_skip, substring_all.
Qed.

Lemma lower_app (a b : string) : Py.lower (a +:+ b) = Py.lower a +:+ Py.lower b.
Proof.
  induction a as [|c a IH]; [done|]. rewrite str_app_cons. simpl.
  by rewrite IH.
Qed.

Lemma lower_app_inv (f x y : string) :
  Py.lower f = x +:+ y →
  ∃ a b, f = a +:+ b ∧ Py.lower a = x ∧ Py.lower b = y.
Proof.
  revert f. induction x as [|c x IH]; intros f Hf.
  - by exists "", f.
  - destruct f as [|d f]; [done|]. rewrite str_app_cons in Hf. simpl in Hf.
    injection Hf as Hc Hf. destruct (IH f Hf) as (a & b & -> & Ha & Hb).
    exists (String d a), b. rewrite str_app_cons. simpl. by rewrite Hc, Ha.
Qed.

Lemma lower_char_dot (c : ascii) :
  Ascii.eqb (Py.lower_char c) "." = Ascii.eqb c ".".
Proof. by destruct c as [[] [] [] [] [] [] [] []]. Qed.

Lemma lower_char_3 (c : ascii) :
  Ascii.eqb (Py.lower_char c) "3" = Ascii.eqb c "3".
Proof. by destruct c as [[] [] [] [] [] [] [] []]. Qed.

Lemma lower_char_m (c : ascii) :
  Ascii.eqb (Py.lower_char c) "m" = Ascii.eqb c "m" || Ascii.eqb c "M".
Proof. by destruct c as [[] [] [] [] [] [] [] []]. Qed.

Lemma lower_char_p (c : ascii) :
  Ascii.eqb (Py.lower_char c) "p" = Ascii.eqb c "p" || Ascii.eqb c "P".
Proof. by destruct c as [[] [] [] [] [] [] [] []]. Qed.

(** X8: A name is a candidate exactly when it ends in a dot, an [m] or [M], a
    [p] or [P] and a [3] (line 76). *)
Theorem is_mp3_iff (f : string) :
  is_mp3 f = true
  ↔ ∃ pre a b,
      f = pre +:+ String "." (String a (String b "3"))
      ∧ (a = "m" ∨ a = "M")%char ∧ (b = "p" ∨ b = "P")%char.
Proof.
  unfold is_mp3. rewrite endswith_iff. split.
  - intros [x Hx]. apply lower_app_inv in Hx as (pre & q & -> & _ & Hq).
    destruct q as [|c1 [|c2 [|c3 [|c4 [|c5 q]]]]]; try done.
    simpl in Hq. injection Hq as H1 H2 H3 H4.
    apply Ascii.eqb_eq in H1, H2, H3, H4.
    rewrite lower_char_dot in H1. rewrite lower_char_m in H2.
    rewrite lower_char_p in H3. rewrite lower_char_3 in H4.
    apply Ascii.eqb_eq in H1, H4. subst c1 c4.
    apply orb_true_iff in H2, H3. rewrite !Ascii.eqb_eq in H2, H3.
    by exists pre, c2, c3.
  - intros (pre & a & b & -> & Ha & Hb). exists (Py.lower pre).
    rewrite lower_app. f_equal.
    by destruct Ha as [-> | ->], Hb as [-> | ->].
Qed.

(** ** More on titles *)

Lemma split_last_notin (c : ascii) (s : string) :
  contains c s = false → split_last c s = None.
Proof.
  induction s as [|a s IH]; [done|]. simpl.
  intros [Ha Hs]%orb_false_iff. by rewrite IH, Ha.
Qed.

Lemma split_last_app (c : ascii) (l r : string) :
  contains c r = false → split_last c (l +:+ String c r) = Some (l, r).
Proof.
  intros Hr. induction l as [|a l IH].
  - rewrite str_app_nil_l. simpl.
    by rewrite (split_last_notin c r Hr), Ascii.eqb_refl.
  - rewrite str_app_cons. simpl. by rewrite IH.
Qed.

(** X9: The title of a plain name [base.ext] is made from [base] alone, the
    last dot deciding where [ext] begins; but when [base] is empty or all
    dots, as for a file called [.mp3], the whole name is kept (lines
    24-26). *)
Theorem title_of_name (base ext : string) :
  contains "/" (base +:+ String "." ext) = false →
  contains "." ext = false →
  sanitize_title (base +:+ String "." ext)
  = if all_dots base
    then Py.strip (map_chars sep_to_space (base +:+ String "." ext))
    else Py.strip (map_chars sep_to_space base).
Proof.
  intros Hslash Hdot. unfold sanitize_title.
  rewrite replace_sep_to_space, splitext_stem. unfold stem, stem_name.
  rewrite (split_last_notin "/" _ Hslash), (split_last_app "." base ext Hdot).
  by destruct (all_dots base).
Qed.

Lemma title_of_name_witness :
  contains "/" ("01-My_Song.v2" +:+ String "." "MP3") = false
  ∧ contains "." "MP3" = false
  ∧ sanitize_title ("01-My_Song.v2" +:+ String "." "MP3") = "01 My Song.v2".
Proof.
  assert (H1 : contains "/" ("01-My_Song.v2" +:+ String "." "MP3") = false)
    by done.
  assert (H2 : contains "." "MP3" = false) by done.
  split; [exact H1|]. split; [exact H2|].
  by rewrite (title_of_name "01-My_Song.v2" "MP3" H1 H2).
Defined.

Lemma contains_map_sep (c : ascii) (s : string) :
  (c = "_" ∨ c = "-")%char → contains c (map_chars sep_to_space s) = false.
Proof.
  intros Hc. induction s as [|a s IH]; [done|]. simpl. rewrite IH, orb_false_r.
  unfold sep_to_space.
  destruct (Ascii.eqb_spec a "_") as [|H1]; [by destruct Hc as [-> | ->]|].
  destruct (Ascii.eqb_spec a "-") as [|H2]; [by destruct Hc as [-> | ->]|].
  simpl. apply Ascii.eqb_neq. by destruct Hc as [-> | ->].
Qed.

(** X10: A title never holds an underscore or a hyphen, and never starts or
    ends with white space. *)
Theorem title_has_no_separator (fn : string) :
  contains "_" (sanitize_title fn) = false
  ∧ contains "-" (sanitize_title fn) = false
  ∧ starts_with_space (sanitize_title fn) = false
  ∧ ends_with_space (sanitize_title fn) = false.
Proof.
  assert (Htrim : trimmed_of (map_chars sep_to_space (stem fn)) (sanitize_title fn)).
  { unfold sanitize_title. rewrite replace_sep_to_space, splitext_stem.
    apply strip_trimmed. }
  destruct Htrim as (l & r & Heq & _ & _ & Hs & He).
  assert (Hc : ∀ c, (c = "_" ∨ c = "-")%char →
                    contains c (sanitize_title fn) = false).
  { intros c Hc. pose proof (contains_map_sep c (stem fn) Hc) as Hno.
    rewrite Heq, !contains_app in Hno.
    apply orb_false_iff in Hno as [_ Hno]. by apply orb_false_iff in Hno as [Hno _]. }
  split; [apply Hc; by left|]. split; [apply Hc; by right|]. done.
Qed.

Lemma rstrip_empty_iff (s : string) : Py.rstrip s = "" ↔ all_space s = true.
Proof.
  induction s as [|c s IH]; [done|]. simpl.
  destruct (Py.rstrip s) as [|d t] eqn:Hr.
  - destruct (Py.isspace c); simpl; [|done].
    split; [intros _; by apply IH|done].
  - split; [done|]. intros [_ Hs]%andb_true_iff. apply IH in Hs. done.
Qed.

Lemma all_space_map_sep (s : string) :
  all_space (map_chars sep_to_space s) = all_sep_or_space s.
Proof.
  induction s as [|c s IH]; [done|]. simpl. rewrite IH. f_equal.
  unfold sep_to_space.
  destruct (Ascii.eqb c "_"); [done|]. by destruct (Ascii.eqb c "-").
Qed.

(** X11: The title is empty exactly when the name without its extension holds
    nothing but underscores, hyphens and white space. *)
Theorem title_empty_iff (fn : string) :
  sanitize_title fn = "" ↔ all_sep_or_space (stem fn) = true.
Proof.
  unfold sanitize_title.
  rewrite replace_sep_to_space, splitext_stem, <- all_space_map_sep.
  rewrite <- rstrip_empty_iff. unfold Py.strip. split.
  - intros Hl. destruct (rstrip_spec (map_chars sep_to_space (stem fn)))
      as (r & _ & _ & He).
    destruct (lstrip_spec (Py.rstrip (map_chars sep_to_space (stem fn))))
      as (l & Hs & Hall & _ & _).
    rewrite Hl, str_app_nil_r in Hs. rewrite Hs in He |- *.
    clear -Hall He. induction l as [|c l IH]; [done|].
    simpl in Hall. apply andb_true_iff in Hall as [Hc Hl].
    destruct l as [|d l]; [simpl in He; congruence|].
    apply IH in Hl; [done|exact He].
  - by intros ->.
Qed.

(** ** A whole run *)

Lemma world_eta (w : world) : mk_world (fs w) (stdout w) (ticks w) = w.
Proof. by destruct w. Qed.

Lemma sample_out_of_range {A : Type} (draw : nat → nat) (population : list A)
    (k : Z) :
  ¬ (0 <= k <= Py.len population) →
  Random.sample draw population k
  = Raise (ValueError "Sample larger than population or is negative").
Proof.
  intros Hk. unfold Random.sample.
  destruct (Z.leb_spec 0 k), (Z.leb_spec k (Py.len population)); simpl;
    try done. lia.
Qed.

(** Whatever is selected comes from the pool. *)
Lemma select_subset (e : env) (pool : list string) (num : Z) (mode : mode_t)
    (chosen : list string) :
  select e pool num mode = Ok chosen → ∀ x, x ∈ chosen → x ∈ pool.
Proof.
  intros Hsel x Hx. destruct mode; unfold select in Hsel.
  - destruct (decide (pool = [])) as [->|Hne]; [done|].
    destruct (rotate_chosen_ok pool Hne (Py.min num (Py.len pool))
                (today_index e)) as (r & Hr & Hw).
    rewrite Hr in Hsel. injection Hsel as ->.
    apply list_elem_of_lookup in Hx as [a Ha].
    apply (window_lookup_inv _ _ _ _ Hw) in Ha as [_ Hp].
    by eapply list_elem_of_lookup_2.
  - destruct (decide (0 <= Py.min num (Py.len pool) <= Py.len pool)) as [Hk|Hk].
    + destruct (sample_ok (draw e) pool _ Hk) as (r & Hr & _ & rest & Hperm).
      rewrite Hr in Hsel. injection Hsel as ->.
      rewrite <- Hperm. apply elem_of_app. by left.
    + by rewrite sample_out_of_range in Hsel.
Qed.

Lemma elem_of_keys (entries : gmap string string) (x : string) :
  x ∈ (map_to_list entries).*1 → is_Some (entries !! x).
Proof.
  intros ([k v] & -> & Hkv)%list_elem_of_fmap.
  apply elem_of_map_to_list in Hkv. by exists v.
Qed.

Lemma copies_of_lookup (entries : gmap string string) (chosen : list string)
    (m : gmap string string) (name : string) :
  Forall (λ fn, is_Some (entries !! fn)) chosen →
  copies_of entries chosen m !! name
  = if decide (name ∈ chosen) then entries !! name else m !! name.
Proof.
  intros Hall. revert m. unfold copies_of.
  induction Hall as [|fn chosen [c Hc] _ IH]; intros m; simpl.
  - done.
  - rewrite Hc, IH. destruct (decide (name ∈ chosen)) as [Hin|Hnin].
    + by rewrite decide_True by by right.
    + destruct (decide (name = fn)) as [->|Hne].
      * rewrite decide_True by by left. by rewrite lookup_insert_eq.
      * rewrite decide_False by (by intros [?|?]%elem_of_cons).
        by rewrite lookup_insert_ne.
Qed.

(** The copy loop of lines 94-105, run where source and output are two
    directories and every chosen file is in the source. *)
Lemma main_items_ok (mp3_dir out_dir site_url : string)
    (entries : gmap string string) (chosen : list string) :
  mp3_dir ≠ out_dir →
  Forall (λ fn, is_Some (entries !! fn)) chosen →
  ∀ (acc : list item) (m : gmap string string) (w : world),
    fs w !! mp3_dir = Some (Dir entries) →
    fs w !! out_dir = Some (Dir m) →
    for_eachM chosen acc (main_item mp3_dir out_dir site_url) w
    = (set_fs (insert out_dir (Dir (copies_of entries chosen m))) w,
       Ok (acc ++ items_of site_url entries chosen)%list).
Proof.
  intros Hne Hall.
  induction Hall as [|fn chosen [c Hc] _ IH]; intros acc m w Hmp3 Hout;
    cbn [for_eachM].
  - unfold set_fs, copies_of. cbn. rewrite insert_id by done.
    by rewrite world_eta, app_nil_r.
  - set (w1 := set_fs (insert out_dir (Dir (<[fn := c]> m))) w).
    assert (Hcopy : Os.copy2 mp3_dir out_dir fn w = (w1, Ok ())).
    { unfold Os.copy2, Os.read_file. rewrite Hmp3, Hc.
      destruct (String.eqb_spec mp3_dir out_dir) as [|_]; [done|].
      by apply write_file_ok. }
    assert (Hsize : Os.path_getsize out_dir fn w1
                    = (w1, Ok (N.of_nat (String.length c)))).
    { unfold Os.path_getsize, Os.read_file, w1. cbn [fs set_fs].
      by rewrite !lookup_insert_eq. }
    assert (Hitem : main_item mp3_dir out_dir site_url acc fn w
                    = (w1, Ok (acc ++ [new_item site_url fn (size_of entries fn)])%list)).
    { unfold main_item. rewrite (bindM_ok _ _ _ _ _ Hcopy).
      rewrite (bindM_ok _ _ _ _ _ Hsize). unfold size_of. by rewrite Hc. }
    rewrite (bindM_ok _ _ _ _ _ Hitem).
    rewrite (IH _ (<[fn := c]> m) w1).
    + unfold w1, set_fs. cbn [fs stdout ticks]. rewrite insert_insert_eq.
      unfold copies_of at 2. cbn [foldl]. rewrite Hc.
      unfold items_of. cbn [fmap list_fmap]. by rewrite <- app_assoc.
    + unfold w1. cbn [fs set_fs]. by rewrite lookup_insert_ne.
    + unfold w1. cbn [fs set_fs]. by rewrite lookup_insert_eq.
Qed.

(** The final state of a run that gets past its checks and whose selection
    succeeds. *)
Lemma main_ok (e : env) (args : args_t) (w : world)
    (entries : gmap string string) (chosen : list string) :
  ready args w entries →
  select e (all_files_of (map_to_list entries).*1) (arg_num args) (arg_mode args)
  = Ok chosen →
  let items := items_of (Py.rstrip_char "/" (arg_site_url args)) entries chosen in
  main e args w
  = (mk_world
       (<[arg_out args :=
            Dir (<["feed.xml" :=
                     feed_text e (ticks w) items (arg_channel_title args)
                       (arg_site_url args) (arg_channel_desc args)]>
                   (copies_of entries chosen ∅))]> (fs w))
       (stdout w +:+ summary (arg_out args) (length chosen) +:+ nl)
       (S (length chosen + ticks w)),
     Ok ()).
Proof.
  intros (Hmp3 & Hout & Hne & Hpool) Hsel items.
  assert (Hall : Forall (λ fn, is_Some (entries !! fn)) chosen).
  { apply Forall_forall. intros fn Hfn. apply elem_of_keys.
    apply (select_subset _ _ _ _ _ Hsel), elem_of_all_files_of in Hfn.
    by destruct Hfn. }
  unfold main.
  rewrite (bindM_ok _ _ w w true) by (unfold Os.path_isdir; by rewrite Hmp3).
  cbn [negb]. rewrite clean_output_dir by done.
  set (w1 := set_fs (insert (arg_out args) (Dir ∅)) w).
  assert (Hmp3' : fs w1 !! arg_mp3_dir args = Some (Dir entries)).
  { unfold w1. cbn [fs set_fs]. by rewrite lookup_insert_ne. }
  assert (Hout' : fs w1 !! arg_out args = Some (Dir ∅)).
  { unfold w1. cbn [fs set_fs]. by rewrite lookup_insert_eq. }
  rewrite (bindM_ok _ _ w1 w1 (map_to_list entries).*1)
    by (unfold Os.listdir; by rewrite Hmp3').
  rewrite bool_decide_eq_false_2 by done.
  rewrite (bindM_ok _ _ w1 w1 chosen) by (unfold lift; by rewrite Hsel).
  erewrite bindM_ok;
    [|by apply (main_items_ok _ _ _ entries chosen Hne Hall [] ∅ w1)].
  rewrite app_nil_l. fold items.
  erewrite bindM_ok; [|apply (build_feed_ok _ _ _ _ _ _ _ _
                                (copies_of entries chosen ∅));
                       cbn [fs set_fs]; by rewrite lookup_insert_eq].
  unfold Os.print, summary, w1, set_fs. cbn [fs stdout ticks].
  rewrite !insert_insert_eq. unfold items, items_of. by rewrite length_fmap.
Qed.

(** What [main_ok] says of the entries of the output directory. *)
Lemma main_ok_output_dir (e : env) (args : args_t) (w : world)
    (entries : gmap string string) (chosen : list string) :
  ready args w entries →
  select e (all_files_of (map_to_list entries).*1) (arg_num args) (arg_mode args)
  = Ok chosen →
  snd (main e args w) = Ok ()
  ∧ ∀ name,
      Os.read_file (arg_out args) name (fst (main e args w))
      = if decide (name = "feed.xml") then
          Some (feed_text e (ticks w)
                  (items_of (Py.rstrip_char "/" (arg_site_url args)) entries chosen)
                  (arg_channel_title args) (arg_site_url args)
                  (arg_channel_desc args))
        else if decide (name ∈ chosen) then entries !! name
        else None.
Proof.
  intros Hready Hsel. rewrite (main_ok e args w entries chosen Hready Hsel).
  split; [done|]. intros name. unfold Os.read_file. cbn [fst fs].
  rewrite lookup_insert_eq.
  assert (Hall : Forall (λ fn, is_Some (entries !! fn)) chosen).
  { apply Forall_forall. intros fn Hfn. apply elem_of_keys.
    apply (select_subset _ _ _ _ _ Hsel), elem_of_all_files_of in Hfn.
    by destruct Hfn. }
  destruct (decide (name = "feed.xml")) as [->|Hne].
  - by rewrite lookup_insert_eq.
  - rewrite lookup_insert_ne by done.
    rewrite (copies_of_lookup entries chosen ∅ name Hall).
    by destruct (decide (name ∈ chosen)).
Qed.

(** A run that ends well has got past its checks, and its selection has
    succeeded. *)
Lemma main_ok_ready (e : env) (args : args_t) (w w' : world) :
  main e args w = (w', Ok ()) →
  ∃ entries chosen,
    ready args w entries
    ∧ select e (all_files_of (map_to_list entries).*1) (arg_num args)
        (arg_mode args) = Ok chosen.
Proof.
  intros Hrun. unfold main in Hrun.
  destruct (fs w !! arg_mp3_dir args) as [[c|entries]|] eqn:Hmp3.
  1, 3: rewrite (bindM_ok _ _ w w false) in Hrun
          by (unfold Os.path_isdir; by rewrite Hmp3); done.
  rewrite (bindM_ok _ _ w w true) in Hrun
    by (unfold Os.path_isdir; by rewrite Hmp3).
  cbn [negb] in Hrun.
  assert (Hout : ∀ c, fs w !! arg_out args ≠ Some (File c)).
  { intros c Hc.
    rewrite (bindM_ok _ _ w w true) in Hrun
      by (unfold Os.path_exists; by rewrite Hc).
    rewrite (bindM_raise _ _ w w (OSError "NotADirectoryError")) in Hrun
      by (unfold Os.rmtree; by rewrite Hc).
    done. }
  rewrite clean_output_dir in Hrun by done.
  set (w1 := set_fs (insert (arg_out args) (Dir ∅)) w) in Hrun.
  destruct (decide (arg_mp3_dir args = arg_out args)) as [Heq|Hne].
  { rewrite (bindM_ok _ _ w1 w1 []) in Hrun; [done|].
    unfold Os.listdir, w1. cbn [fs set_fs].
    by rewrite Heq, lookup_insert_eq, map_to_list_empty. }
  rewrite (bindM_ok _ _ w1 w1 (map_to_list entries).*1) in Hrun
    by (unfold Os.listdir, w1; cbn [fs set_fs];
        by rewrite lookup_insert_ne, Hmp3).
  case_bool_decide as Hpool; [done|].
  destruct (select e (all_files_of (map_to_list entries).*1) (arg_num args)
              (arg_mode args)) as [chosen|x] eqn:Hsel.
  - by exists entries, chosen.
  - by rewrite (bindM_raise _ _ w1 w1 x) in Hrun.
Qed.

(** X12: Source and output are plain names of a working directory of regular
    files and directories of regular files, and the selection is the one
    the code makes.  A run that ends well then leaves in the output
    directory the chosen files, each with the content it has in the
    source, and [feed.xml]; whatever the output directory held before is
    gone. *)
Theorem main_output_directory (e : env) (args : args_t) (w w' : world)
    (entries : gmap string string) (chosen : list string) :
  flat args w →
  main e args w = (w', Ok ()) →
  fs w !! arg_mp3_dir args = Some (Dir entries) →
  swap_exact args (all_files_of (map_to_list entries).*1) →
  select e (all_files_of (map_to_list entries).*1) (arg_num args) (arg_mode args)
  = Ok chosen →
  ∀ name,
    Os.read_file (arg_out args) name w'
    = if decide (name = "feed.xml") then
        Some (feed_text e (ticks w)
                (items_of (Py.rstrip_char "/" (arg_site_url args)) entries chosen)
                (arg_channel_title args) (arg_site_url args)
                (arg_channel_desc args))
      else if decide (name ∈ chosen) then entries !! name
      else None.
Proof.
  intros _ Hrun Hmp3 _ Hsel.
  destruct (main_ok_ready e args w w' Hrun) as (entries' & _ & Hready & _).
  assert (entries' = entries) as ->.
  { destruct Hready as [Hmp3' _]. congruence. }
  destruct (main_ok_output_dir e args w entries chosen Hready Hsel) as [_ Hdir].
  by rewrite Hrun in Hdir.
Qed.

Lemma main_output_directory_witness :
  let e := mk_env (Date.mk_date 2020 1 2) (λ _, "NOW") (λ i, i) in
  let args := mk_args "mp3" "public" 1 "https://h/r/" rotate "T" "D" in
  let entries : gmap string string :=
    {[ "a.mp3" := "hello"; "b.MP3" := "xx"; "n.txt" := "t" ]} in
  let w := mk_world {[ "mp3" := Dir entries;
                       "public" := Dir {[ "old.mp3" := "o" ]} ]} "" 0 in
  flat args w
  ∧ snd (main e args w) = Ok ()
  ∧ select e (all_files_of (map_to_list entries).*1) 1 rotate = Ok ["b.MP3"]
  ∧ Os.read_file "public" "b.MP3" (fst (main e args w)) = Some "xx"
  ∧ Os.read_file "public" "old.mp3" (fst (main e args w)) = None.
Proof.
  intros e args entries w.
  assert (Hflat : flat args w).
  { split; [by vm_compute|]. split; by vm_compute. }
  assert (Hrun : main e args w = (fst (main e args w), Ok ())) by by vm_compute.
  assert (Hmp3 : fs w !! arg_mp3_dir args = Some (Dir entries)) by done.
  assert (Hex : swap_exact args (all_files_of (map_to_list entries).*1))
    by by left.
  assert (Hsel : select e (all_files_of (map_to_list entries).*1)
                   (arg_num args) (arg_mode args) = Ok ["b.MP3"])
    by by vm_compute.
  pose proof (main_output_directory e args w _ entries ["b.MP3"]
                Hflat Hrun Hmp3 Hex Hsel) as Hdir.
  split; [exact Hflat|]. split; [by rewrite Hrun|]. split; [exact Hsel|].
  split; (etrans; [apply Hdir|by vm_compute]).
Defined.

(** X13: Source and output are plain names of a working directory of regular
    files and directories of regular files.  A run that ends well then
    changes nothing outside the output directory: the source, which is
    another directory, and every other path are as they were. *)
Theorem main_touches_only_output (e : env) (args : args_t) (w w' : world) :
  flat args w →
  main e args w = (w', Ok ()) →
  arg_mp3_dir args ≠ arg_out args
  ∧ fs w' !! arg_mp3_dir args = fs w !! arg_mp3_dir args
  ∧ ∀ p, p ≠ arg_out args → fs w' !! p = fs w !! p.
Proof.
  intros _ Hrun.
  destruct (main_ok_ready e args w w' Hrun) as (entries & chosen & Hready & Hsel).
  rewrite (main_ok e args w entries chosen Hready Hsel) in Hrun.
  injection Hrun as <-.
  destruct Hready as (Hmp3 & _ & Hne & _). cbn [fs].
  split; [done|]. split; [by rewrite lookup_insert_ne|].
  intros p Hp. by rewrite lookup_insert_ne.
Qed.

Lemma main_touches_only_output_witness :
  let e := mk_env (Date.mk_date 2020 1 2) (λ _, "NOW") (λ i, i) in
  let args := mk_args "mp3" "public" 5 "https://h/r" random "T" "D" in
  let entries : gmap string string := {[ "a.mp3" := "hello"; "b.mp3" := "xx" ]} in
  let w := mk_world {[ "mp3" := Dir entries; "notes" := File "keep" ]} "" 0 in
  flat args w
  ∧ snd (main e args w) = Ok ()
  ∧ fs (fst (main e args w)) !! "mp3" = Some (Dir entries)
  ∧ fs (fst (main e args w)) !! "notes" = Some (File "keep").
Proof.
  intros e args entries w.
  assert (Hflat : flat args w).
  { split; [by vm_compute|]. split; by vm_compute. }
  assert (Hrun : main e args w = (fst (main e args w), Ok ())) by by vm_compute.
  destruct (main_touches_only_output e args w _ Hflat Hrun)
    as (_ & Hsrc & Hrest).
  split; [exact Hflat|]. split; [by rewrite Hrun|].
  split; [etrans; [exact Hsrc|done]|].
  etrans; [by apply Hrest|done].
Defined.



(** X15: The feed that a run leaves in [feed.xml] has one item for each
    chosen file, in the order of the selection, and each item describes
    the copy that the run has put in the output directory: its length is
    the size of that copy in decimal, its URL the stripped site URL, a
    slash and the filename, its title the one derived from the filename.
    Stated under the conditions of X12. *)
Theorem main_items_describe_files (e : env) (args : args_t) (w w' : world)
    (entries : gmap string string) (chosen : list string) :
  flat args w →
  main e args w = (w', Ok ()) →
  fs w !! arg_mp3_dir args = Some (Dir entries) →
  swap_exact args (all_files_of (map_to_list entries).*1) →
  select e (all_files_of (map_to_list entries).*1) (arg_num args) (arg_mode args)
  = Ok chosen →
  ∃ items,
    Os.read_file (arg_out args) "feed.xml" w'
    = Some (feed_text e (ticks w) items (arg_channel_title args)
              (arg_site_url args) (arg_channel_desc args))
    ∧ Forall2 (λ fn it,
         ∃ content,
           Os.read_file (arg_out args) fn w' = Some content
           ∧ Os.read_file (arg_mp3_dir args) fn w = Some content
           ∧ it = {| it_filename := fn;
                     it_title := sanitize_title fn;
                     it_length := Py.str_of_N (N.of_nat (String.length content));
                     it_url := Py.rstrip_char "/" (arg_site_url args) +:+ "/"
                               +:+ fn |}) chosen items.
Proof.
  intros _ Hrun Hmp3 _ Hsel.
  destruct (main_ok_ready e args w w' Hrun) as (entries' & _ & Hready & _).
  assert (entries' = entries) as ->.
  { destruct Hready as [Hmp3' _]. congruence. }
  destruct (main_ok_output_dir e args w entries chosen Hready Hsel) as [_ Hdir].
  rewrite Hrun in Hdir. cbn [fst] in Hdir.
  exists (items_of (Py.rstrip_char "/" (arg_site_url args)) entries chosen).
  split; [by rewrite Hdir|].
  assert (Hall : Forall (λ fn, is_Some (entries !! fn) ∧ is_mp3 fn = true) chosen).
  { apply Forall_forall. intros fn Hfn.
    apply (select_subset _ _ _ _ _ Hsel), elem_of_all_files_of in Hfn.
    destruct Hfn as [Hfn Hext]. split; [by apply elem_of_keys|done]. }
  unfold items_of. apply Forall2_fmap_r, Forall2_same_length_lookup.
  split; [done|]. intros i fn fn' Hi Hi'.
  assert (fn' = fn) as -> by congruence.
  rewrite Forall_forall in Hall.
  destruct (Hall fn) as [[c Hc] Hext]; [by eapply list_elem_of_lookup_2|].
  exists c. rewrite Hdir.
  destruct (decide (fn = "feed.xml")) as [->|_]; [done|].
  rewrite decide_True by by eapply list_elem_of_lookup_2.
  split; [done|]. split; [unfold Os.read_file; by rewrite Hmp3|].
  unfold new_item, size_of. by rewrite Hc.
Qed.

Lemma main_items_describe_files_witness :
  let e := mk_env (Date.mk_date 2020 1 2) (λ _, "NOW") (λ i, i) in
  let args := mk_args "mp3" "public" 5 "https://h/r/" rotate "T" "D" in
  let entries : gmap string string := {[ "a.mp3" := "hello"; "b.mp3" := "xx" ]} in
  let w := mk_world {[ "mp3" := Dir entries ]} "" 0 in
  flat args w
  ∧ snd (main e args w) = Ok ()
  ∧ ∃ items,
      Os.read_file "public" "feed.xml" (fst (main e args w))
      = Some (feed_text e 0 items "T" "https://h/r/" "D")
      ∧ it_length <$> items = ["5"; "2"]
      ∧ it_url <$> items = ["https://h/r/a.mp3"; "https://h/r/b.mp3"].
Proof.
  intros e args entries w.
  assert (Hflat : flat args w).
  { split; [by vm_compute|]. split; by vm_compute. }
  assert (Hrun : main e args w = (fst (main e args w), Ok ())) by by vm_compute.
  assert (Hmp3 : fs w !! arg_mp3_dir args = Some (Dir entries)) by done.
  assert (Hex : swap_exact args (all_files_of (map_to_list entries).*1))
    by by left.
  assert (Hsel : select e (all_files_of (map_to_list entries).*1)
                   (arg_num args) (arg_mode args) = Ok ["a.mp3"; "b.mp3"])
    by by vm_compute.
  destruct (main_items_describe_files e args w _ entries _
              Hflat Hrun Hmp3 Hex Hsel) as (items & Hfeed & Hitems).
  split; [exact Hflat|]. split; [by rewrite Hrun|].
  exists items. split; [exact Hfeed|].
  apply Forall2_cons_inv_l in Hitems
    as (it1 & items1 & (c1 & Hc1 & _ & ->) & Hitems & ->).
  apply Forall2_cons_inv_l in Hitems
    as (it2 & items2 & (c2 & Hc2 & _ & ->) & Hitems & ->).
  apply Forall2_nil_inv_l in Hitems as ->.
  assert (c1 = "hello") as ->.
  { assert (Some c1 = Some "hello") as [= ->]; [|done].
    rewrite <- Hc1. by vm_compute. }
  assert (c2 = "xx") as ->.
  { assert (Some c2 = Some "xx") as [= ->]; [|done].
    rewrite <- Hc2. by vm_compute. }
  split; by vm_compute.
Defined.

(** X16: Source and output are plain names of a working directory of regular
    files and directories of regular files; the source is a directory
    with at least one candidate and the output path is another name,
    absent or a directory.  Then, in rotate mode with any count, and in
    random mode with a count that is not negative on a pool of at most
    21 files, the run ends well; the feed then has [min(num, N)] items,
    or none when that is negative. *)
Theorem main_succeeds (e : env) (args : args_t) (w : world)
    (entries : gmap string string) :
  flat args w →
  ready args w entries →
  let pool := all_files_of (map_to_list entries).*1 in
  arg_mode args = rotate ∨ (0 <= arg_num args ∧ Py.len pool <= swap_limit) →
  ∃ chosen,
    select e pool (arg_num args) (arg_mode args) = Ok chosen
    ∧ Py.len chosen = Z.max 0 (Py.min (arg_num args) (Py.len pool))
    ∧ main e args w = (fst (main e args w), Ok ())
    ∧ ticks (fst (main e args w)) = S (length chosen + ticks w).
Proof.
  intros _ Hready pool Hmode.
  assert (Hpool : pool ≠ []) by by destruct Hready as (_ & _ & _ & ?).
  assert (Hsel : ∃ chosen,
             select e pool (arg_num args) (arg_mode args) = Ok chosen
             ∧ Py.len chosen = Z.max 0 (Py.min (arg_num args) (Py.len pool))).
  { destruct (arg_mode args) eqn:Hm.
    - destruct (select_rotate_ok e pool (arg_num args) Hpool)
        as (chosen & Hsel & Hw).
      exists chosen. split; [done|]. by apply (window_length _ _ _ _ Hw).
    - destruct Hmode as [|[Hnum _]]; [done|].
      pose proof (len_nonneg pool) as HN.
      destruct (sample_ok (draw e) pool (Py.min (arg_num args) (Py.len pool)))
        as (chosen & Hrun & Hlen & _); [rewrite min_spec; lia|].
      exists chosen. split; [done|]. rewrite Hlen, min_spec. lia. }
  destruct Hsel as (chosen & Hsel & Hlen).
  exists chosen. split; [done|]. split; [done|].
  by rewrite (main_ok e args w entries chosen Hready Hsel).
Qed.

Lemma main_succeeds_witness :
  let e := mk_env (Date.mk_date 2031 7 4) (λ _, "NOW") (λ i, i) in
  let args := mk_args "mp3" "public" (-4) "https://h/r" rotate "T" "D" in
  let entries : gmap string string := {[ "a.mp3" := "hello"; "b.mp3" := "xx" ]} in
  let w := mk_world {[ "mp3" := Dir entries ]} "" 0 in
  flat args w ∧ ready args w entries
  ∧ ∃ chosen : list string, Py.len chosen = 0 ∧ snd (main e args w) = Ok ().
Proof.
  intros e args entries w.
  assert (Hflat : flat args w).
  { split; [by vm_compute|]. split; by vm_compute. }
  assert (Hready : ready args w entries).
  { split; [done|]. split; [done|]. split; [done|]. by vm_compute. }
  assert (Hmode : arg_mode args = rotate
                  ∨ (0 <= arg_num args
                     ∧ Py.len (all_files_of (map_to_list entries).*1)
                       <= swap_limit)) by by left.
  destruct (main_succeeds e args w entries Hflat Hready Hmode)
    as (chosen & _ & Hlen & Hrun & _).
  split; [exact Hflat|]. split; [exact Hready|].
  exists chosen. split; [exact Hlen|].
  by rewrite Hrun.
Defined.

(** ** Runs that fail *)

(** X17: When the source path is not a directory the run stops with
    [SystemExit] before it has changed anything (lines 68-69). *)
Theorem main_missing_source (e : env) (args : args_t) (w : world) :
  (∀ entries, fs w !! arg_mp3_dir args ≠ Some (Dir entries)) →
  main e args w
  = (w, Raise (SystemExit ("mp3 dir not found: " +:+ arg_mp3_dir args))).
Proof.
  intros Hmp3. unfold main.
  rewrite (bindM_ok _ _ w w false); [done|].
  unfold Os.path_isdir. destruct (fs w !! arg_mp3_dir args) as [[c|d]|] eqn:Hd;
    [done| |done].
  by destruct (Hmp3 d).
Qed.

Lemma main_missing_source_witness :
  let e := mk_env (Date.mk_date 2024 3 9) (λ _, "NOW") (λ i, i) in
  let args := mk_args "mp3" "public" 10 "https://h/r" rotate "T" "D" in
  let w := mk_world {[ "mp3" := File "not a directory";
                       "public" := Dir {[ "old.mp3" := "o" ]} ]} "" 0 in
  (∀ entries, fs w !! "mp3" ≠ Some (Dir entries))
  ∧ main e args w = (w, Raise (SystemExit "mp3 dir not found: mp3")).
Proof.
  intros e args w.
  assert (H : ∀ entries, fs w !! arg_mp3_dir args ≠ Some (Dir entries)) by done.
  split; [exact H|]. exact (main_missing_source e args w H).
Defined.



(** X19: When the output path is a regular file the run fails in
    [shutil.rmtree] and changes nothing (lines 72-73). *)
Theorem main_output_is_file (e : env) (args : args_t) (w : world)
    (entries : gmap string string) (c : string) :
  fs w !! arg_mp3_dir args = Some (Dir entries) →
  fs w !! arg_out args = Some (File c) →
  main e args w = (w, Raise (OSError "NotADirectoryError")).
Proof.
  intros Hmp3 Hout. unfold main.
  rewrite (bindM_ok _ _ w w true) by (unfold Os.path_isdir; by rewrite Hmp3).
  cbn [negb].
  rewrite (bindM_ok _ _ w w true) by (unfold Os.path_exists; by rewrite Hout).
  apply bindM_raise. unfold Os.rmtree. by rewrite Hout.
Qed.

Lemma main_output_is_file_witness :
  let e := mk_env (Date.mk_date 2024 3 9) (λ _, "NOW") (λ i, i) in
  let args := mk_args "mp3" "public" 10 "https://h/r" rotate "T" "D" in
  let entries : gmap string string := {[ "a.mp3" := "hello" ]} in
  let w := mk_world {[ "mp3" := Dir entries; "public" := File "x" ]} "" 0 in
  fs w !! "mp3" = Some (Dir entries) ∧ fs w !! "public" = Some (File "x")
  ∧ main e args w = (w, Raise (OSError "NotADirectoryError")).
Proof.
  intros e args entries w.
  assert (H1 : fs w !! arg_mp3_dir args = Some (Dir entries)) by done.
  assert (H2 : fs w !! arg_out args = Some (File "x")) by done.
  split; [exact H1|]. split; [exact H2|].
  exact (main_output_is_file e args w entries "x" H1 H2).
Defined.



(** ** [build_feed] and the rest of the directory *)

(** X21: [build_feed] replaces the feed file, whatever it held, and touches
    nothing else: the other entries of the directory, the other paths and
    the standard output stay as they were (lines 31-49). *)
Theorem build_feed_frame (e : env) (items : list item)
    (ct cl cd out_dir name : string) (w : world)
    (entries : gmap string string) :
  fs w !! out_dir = Some (Dir entries) →
  let w' := fst (build_feed e items ct cl cd out_dir name w) in
  Os.read_file out_dir name w' = Some (feed_text e (ticks w) items ct cl cd)
  ∧ (∀ other, other ≠ name → Os.read_file out_dir other w' = entries !! other)
  ∧ (∀ p, p ≠ out_dir → fs w' !! p = fs w !! p)
  ∧ stdout w' = stdout w
  ∧ ticks w' = S (length items + ticks w).
Proof.
  intros Hd. rewrite (build_feed_ok _ _ _ _ _ _ _ _ entries Hd).
  unfold Os.read_file. cbn [fst fs stdout ticks].
  rewrite lookup_insert_eq. split; [by rewrite lookup_insert_eq|].
  split; [intros other Hne; by rewrite lookup_insert_ne|].
  split; [intros p Hp; by rewrite lookup_insert_ne|]. done.
Qed.

Lemma build_feed_frame_witness :
  let e := mk_env (Date.mk_date 2024 3 9) (λ _, "NOW") (λ i, i) in
  let entries : gmap string string :=
    {[ "feed.xml" := "stale"; "a.mp3" := "hello" ]} in
  let w := mk_world {[ "public" := Dir entries ]} "" 0 in
  let w' := fst (build_feed e [] "T" "L" "D" "public" "feed.xml" w) in
  fs w !! "public" = Some (Dir entries)
  ∧ Os.read_file "public" "feed.xml" w' = Some (feed_text e 0 [] "T" "L" "D")
  ∧ Os.read_file "public" "a.mp3" w' = Some "hello".
Proof.
  intros e entries w w'.
  assert (Hd : fs w !! "public" = Some (Dir entries)) by done.
  destruct (build_feed_frame e [] "T" "L" "D" "public" "feed.xml" w entries Hd)
    as (Hfeed & Hother & _).
  split; [exact Hd|]. split; [exact Hfeed|].
  etrans; [by apply Hother|done].
Defined.

(** X22: Where the directory of the feed does not exist, [build_feed] fails
    when it opens the file, having written nothing (lines 30-31). *)
Theorem build_feed_missing_directory (e : env) (items : list item)
    (ct cl cd out_dir name : string) (w : world) :
  fs w !! out_dir = None →
  build_feed e items ct cl cd out_dir name w
  = (mk_world (fs w) (stdout w) (S (ticks w)),
     Raise (OSError "FileNotFoundError")).
Proof.
  intros Hd. unfold build_feed.
  rewrite (bindM_ok _ _ w (mk_world (fs w) (stdout w) (S (ticks w)))
             (clock e (ticks w))) by done.
  apply bindM_raise. unfold Os.write_file. cbn [fs]. by rewrite Hd.
Qed.

Lemma build_feed_missing_directory_witness :
  let e := mk_env (Date.mk_date 2024 3 9) (λ _, "NOW") (λ i, i) in
  let w := mk_world {[ "mp3" := Dir ∅ ]} "" 0 in
  fs w !! "public" = None
  ∧ snd (build_feed e [] "T" "L" "D" "public" "feed.xml" w)
    = Raise (OSError "FileNotFoundError").
Proof.
  intros e w.
  assert (Hd : fs w !! "public" = None) by done.
  split; [exact Hd|].
  by rewrite (build_feed_missing_directory e [] "T" "L" "D" "public" "feed.xml" w Hd).
Defined.

(** ** The exceptions of a run *)

Lemma bindM_raise_inv {A B : Type} (m : M A) (k : A → M B) (w w' : world)
    (x : exn) :
  (m ≫= k) w = (w', Raise x) →
  m w = (w', Raise x) ∨ ∃ w1 a, m w = (w1, Ok a) ∧ k a w1 = (w', Raise x).
Proof.
  unfold mbind, M_bind. destruct (m w) as [w1 [a|y]].
  - intros Hk. right. by exists w1, a.
  - intros [= <- <-]. by left.
Qed.

Lemma for_eachM_raise {A S : Type} (P : exn → Prop) (body : S → A → M S)
    (xs : list A) (s : S) (w w' : world) (x : exn) :
  (∀ s a w w' x, body s a w = (w', Raise x) → P x) →
  for_eachM xs s body w = (w', Raise x) → P x.
Proof.
  intros Hbody. revert s w. induction xs as [|a xs IH]; intros s w;
    cbn [for_eachM].
  - done.
  - intros [Hr | (w1 & s1 & _ & Hr)]%bindM_raise_inv; eauto.
Qed.

Lemma write_file_raise (d name content : string) (w w' : world) (x : exn) :
  Os.write_file d name content w = (w', Raise x) → ∃ msg, x = OSError msg.
Proof.
  unfold Os.write_file. destruct (fs w !! d) as [[c|entries]|];
    intros [= <- <-]; eauto.
Qed.

Lemma main_item_raise (mp3_dir out_dir site_url fn : string) (items : list item)
    (w w' : world) (x : exn) :
  main_item mp3_dir out_dir site_url items fn w = (w', Raise x) →
  ∃ msg, x = OSError msg.
Proof.
  unfold main_item.
  intros [Hr | (w1 & [] & _ & Hr)]%bindM_raise_inv.
  - unfold Os.copy2 in Hr. destruct (Os.read_file mp3_dir fn w).
    + destruct (String.eqb mp3_dir out_dir).
      * injection Hr as <- <-. eauto.
      * by eapply write_file_raise.
    + injection Hr as <- <-. eauto.
  - apply bindM_raise_inv in Hr as [Hr | (w2 & len & _ & Hr)]; [|done].
    unfold Os.path_getsize in Hr. destruct (Os.read_file out_dir fn w1);
      [done|]. injection Hr as <- <-. eauto.
Qed.

Lemma build_feed_raise (e : env) (items : list item) (ct cl cd out_dir name : string)
    (w w' : world) (x : exn) :
  build_feed e items ct cl cd out_dir name w = (w', Raise x) →
  ∃ msg, x = OSError msg.
Proof.
  unfold build_feed.
  intros [Hr | (w1 & now & _ & Hr)]%bindM_raise_inv; [done|].
  apply bindM_raise_inv in Hr as [Hr | (w2 & [] & _ & Hr)];
    [by eapply write_file_raise|].
  apply bindM_raise_inv in Hr as [Hr | (w3 & f & _ & Hr)].
  - by rewrite build_feed_items in Hr.
  - by eapply write_file_raise.
Qed.

Lemma select_raise (e : env) (pool : list string) (num : Z) (mode : mode_t)
    (x : exn) :
  pool ≠ [] → select e pool num mode = Raise x →
  mode = random ∧ ∃ msg, x = ValueError msg.
Proof.
  intros Hne Hsel. destruct mode.
  - destruct (select_rotate_ok e pool num Hne) as (r & Hr & _). congruence.
  - split; [done|]. unfold select in Hsel.
    destruct (decide (0 <= Py.min num (Py.len pool) <= Py.len pool)) as [Hk|Hk].
    + destruct (sample_ok (draw e) pool _ Hk) as (r & Hr & _). congruence.
    + rewrite sample_out_of_range in Hsel by done. injection Hsel as <-. eauto.
Qed.

(** X23: In rotate mode a run never fails with [ZeroDivisionError] nor with
    [IndexError], whatever the arguments, the date and the file system:
    the rotation (lines 86-91) is never run on an empty pool and never
    reads outside the pool. *)
Theorem main_rotate_arithmetic_safe (e : env) (args : args_t) (w w' : world)
    (x : exn) :
  arg_mode args = rotate →
  main e args w = (w', Raise x) →
  x ≠ ZeroDivisionError ∧ x ≠ IndexError.
Proof.
  intros Hrot Hr.
  assert (Hx : (∃ msg, x = SystemExit msg) ∨ (∃ msg, x = OSError msg)).
  { unfold main in Hr.
    apply bindM_raise_inv in Hr as [Hr | (w1 & isdir & _ & Hr)]; [done|].
    destruct isdir; cbn [negb] in Hr; [|injection Hr as <- <-; eauto].
    apply bindM_raise_inv in Hr as [Hr | (w2 & ex & Hex & Hr)]; [done|].
    apply bindM_raise_inv in Hr as [Hr | (w3 & [] & _ & Hr)].
    { destruct ex; [|done]. unfold Os.rmtree in Hr.
      destruct (fs w2 !! arg_out args) as [[?|?]|]; [|done|];
        injection Hr as <- <-; eauto. }
    apply bindM_raise_inv in Hr as [Hr | (w4 & [] & _ & Hr)].
    { unfold Os.makedirs in Hr.
      destruct (fs w3 !! arg_out args) as [[?|?]|]; [|done|done].
      injection Hr as <- <-; eauto. }
    apply bindM_raise_inv in Hr as [Hr | (w5 & names & _ & Hr)].
    { unfold Os.listdir in Hr.
      destruct (fs w4 !! arg_mp3_dir args) as [[?|?]|]; [|done|];
        injection Hr as <- <-; eauto. }
    case_bool_decide as Hpool; [injection Hr as <- <-; eauto|].
    apply bindM_raise_inv in Hr as [Hr | (w6 & chosen & _ & Hr)].
    { unfold lift in Hr. injection Hr as <- Hsel.
      destruct (select_raise _ _ _ _ _ Hpool Hsel) as (Hmode & _). congruence. }
    apply bindM_raise_inv in Hr as [Hr | (w7 & items & _ & Hr)].
    { right. apply (for_eachM_raise (λ x, ∃ msg, x = OSError msg)) in Hr; [done|].
      intros ?????. by apply main_item_raise. }
    apply bindM_raise_inv in Hr as [Hr | (w8 & [] & _ & Hr)]; [|done].
    right. by apply build_feed_raise in Hr. }
  destruct Hx as [[msg ->]|[msg ->]]; by split.
Qed.

Lemma main_rotate_arithmetic_safe_witness :
  let e := mk_env (Date.mk_date 2024 3 9) (λ _, "NOW") (λ i, i) in
  let args := mk_args "mp3" "public" 3 "https://h/r" rotate "T" "D" in
  let w := mk_world {[ "mp3" := Dir {[ "a.txt" := "x" ]} ]} "" 0 in
  arg_mode args = rotate
  ∧ main e args w
    = (fst (main e args w), Raise (SystemExit "No mp3 files found in mp3_dir"))
  ∧ SystemExit "No mp3 files found in mp3_dir" ≠ ZeroDivisionError.
Proof.
  intros e args w.
  assert (Hmode : arg_mode args = rotate) by done.
  assert (Hr : main e args w
               = (fst (main e args w),
                  Raise (SystemExit "No mp3 files found in mp3_dir")))
    by by vm_compute.
  split; [exact Hmode|]. split; [exact Hr|].
  exact (proj1 (main_rotate_arithmetic_safe e args w _ _ Hmode Hr)).
Defined.
